(** * Requirement and selection engine of the actuator sizing application

    A shallow embedding of the calculation core of [app-torque.py]: the
    valve and actuator records with their catalogs, the torque/thrust
    formulas, and the actuator selection loop with its final sort.

    Numbers.  Python's [int] and [float] values are embedded as exact
    rationals [Q]: an integer [n] is [n # 1], a decimal literal such as
    [0.8] is the fraction [8 # 10], and [+], [-], [*] are the field
    operations (rounding of binary floating point, infinities and NaN are
    not modelled).  Two things the code does with numbers are kept as the
    interpreter has them: comparisons are boolean tests, and true division
    [/] by a zero denominator raises [ZeroDivisionError] instead of giving
    a value.
    Rationals are compared up to [==]; results that the code builds by one
    and the same expression are also equal for [=].  Where the rounding of
    the stored margin decides a statement, module [Binary64] has the
    capability test and the margin once more in IEEE binary64. *)

From Stdlib Require Import QArith Qminmax Lqa.
From Stdlib Require Import List String Bool.
From Stdlib Require Import Sorted Permutation.
From Stdlib Require PrimFloat FloatOps SpecFloat Uint63.
Import ListNotations.

Open Scope Q_scope.

(** ** Python values and control *)

Inductive exn : Set :=
| ZeroDivisionError.

Inductive result (A : Type) : Type :=
| Ok (a : A)
| Raise (e : exn).

Arguments Ok {A} a.
Arguments Raise {A} e.

Definition bind {A B : Type} (r : result A) (k : A -> result B) : result B :=
  match r with
  | Ok a => k a
  | Raise e => Raise e
  end.

Notation "x <- r ;; k" := (bind r (fun x => k))
  (at level 61, r at next level, right associativity).

(** Comparison operators on numbers. *)
Definition py_eq (x y : Q) : bool := Qeq_bool x y.
Definition py_ge (x y : Q) : bool := Qle_bool y x.
Definition py_lt (x y : Q) : bool := negb (Qle_bool y x).
Definition py_gt (x y : Q) : bool := py_lt y x.

(** True division [x / y]. *)
Definition py_div (x y : Q) : result Q :=
  if py_eq y 0 then Raise ZeroDivisionError else Ok (x / y).

(** Truth value of an optional string argument: [None] and the empty
    string are false. *)
Definition truthy (s : option string) : bool :=
  match s with
  | None => false
  | Some s' => negb (String.eqb s' EmptyString)
  end.

(** [s != lit] and [field != s] for an optional string [s] that is known
    to be a string where the test is reached; [None] differs from every
    string. *)
Definition str_ne (s : option string) (lit : string) : bool :=
  match s with
  | None => true
  | Some s' => negb (String.eqb s' lit)
  end.

(** [d.get(k, default)] on a dict given as its list of items. *)
Fixpoint dict_get (d : list (string * Q)) (k : string) (default : Q) : Q :=
  match d with
  | [] => default
  | (k', v) :: d' => if String.eqb k' k then v else dict_get d' k default
  end.

(** [math.pi], read as its printed decimal value. *)
Definition math_pi : Q := 3.141592653589793.

(** ** Constants *)

Definition SEAL_FRICTION : list (string * Q) :=
  [ ("PTFE"%string, 0.05);
    ("Graphite"%string, 0.1);
    ("Metal"%string, 0.15);
    ("Elastomer"%string, 0.08) ].

Definition SAFETY_FACTORS : list (string * Q) :=
  [ ("Standard"%string, 1.25);
    ("High"%string, 1.5);
    ("Critical"%string, 2.0) ].

(** ** Valve database *)

Module Valve.

Record t : Set := mk
  { size : Q;
    type : string;
    pressure_class : Q;
    seat_material : string;
    stem_dia_mm : Q;
    max_pressure : Q;
    min_pressure : Q;
    max_temp : Q;
    min_temp : Q }.

Definition get_seal_friction (self : t) : Q :=
  dict_get SEAL_FRICTION (seat_material self) 0.1.

Definition get_area (self : t) : Q :=
  let radius_m := (size self * 0.0254) / 2 in
  math_pi * radius_m ^ 2.

End Valve.

Definition VALVE_DATABASE : list Valve.t :=
  [ Valve.mk 2 "Ball" 600 "PTFE" 20 100 0 200 (-20);
    Valve.mk 4 "Ball" 600 "Metal" 30 100 0 250 (-20);
    Valve.mk 6 "Butterfly" 300 "Elastomer" 40 40 0 150 (-10);
    Valve.mk 8 "Butterfly" 150 "PTFE" 50 25 0 180 (-10);
    Valve.mk 3 "Globe" 900 "Graphite" 25 150 0 350 (-50);
    Valve.mk 6 "Gate" 600 "Graphite" 35 100 0 400 (-30);
    Valve.mk 2 "Plug" 600 "PTFE" 22 100 0 200 (-20);
    Valve.mk 10 "Diaphragm" 150 "Elastomer" 60 16 0 120 (-10) ].

(** ** Actuator database *)

Module Actuator.

Record t : Set := mk
  { model : string;
    manufacturer : string;
    torque : Q;
    thrust : Q;
    max_pressure : Q;
    min_temp : Q;
    max_temp : Q;
    power : Q;
    supply : string;
    weight : Q;
    price : Q }.

End Actuator.

Definition ACTUATOR_DATABASE : list Actuator.t :=
  [ Actuator.mk "SR-100" "Rotork" 1000 0 100 (-30) 120 0.5 "Pneumatic" 25 3500;
    Actuator.mk "SR-500" "Rotork" 5000 0 100 (-30) 120 1.0 "Pneumatic" 45 5500;
    Actuator.mk "IQT-300" "Rotork" 3000 0 100 (-40) 150 0.75 "Electric" 40 6500;
    Actuator.mk "SMC-200" "Emerson" 2000 0 100 (-20) 100 0.6 "Pneumatic" 30 4200;
    Actuator.mk "SMC-800" "Emerson" 8000 0 100 (-20) 100 1.5 "Pneumatic" 65 7800;
    Actuator.mk "F10" "Flowserve" 0 15000 150 (-50) 200 1.2 "Hydraulic" 85 9500;
    Actuator.mk "F25" "Flowserve" 0 25000 200 (-50) 250 2.0 "Hydraulic" 120 12500;
    Actuator.mk "E-200" "AUMA" 2000 0 100 (-30) 120 0.8 "Electric" 38 5800;
    Actuator.mk "E-1000" "AUMA" 10000 0 100 (-30) 120 2.5 "Electric" 95 11200;
    Actuator.mk "H-150" "Honeywell" 0 20000 180 (-40) 180 1.8 "Hydraulic" 100 10500 ].

(** ** Torque/thrust calculation module *)

Definition calculate_ball_valve_torque (valve : Valve.t) (pressure_bar temperature_c : Q) : Q :=
  let base_torque := Valve.size valve * pressure_bar * 0.8 in
  let temp_factor :=
    if py_gt temperature_c 100 then 1.0 + (temperature_c - 100) * 0.005 else 1.0 in
  let seat_factor :=
    if String.eqb (Valve.seat_material valve) "Metal" then 1.3
    else if String.eqb (Valve.seat_material valve) "Graphite" then 1.1
    else 1.0 in
  base_torque * temp_factor * seat_factor.

Section Calculator.

(** The power operator [x ** y] at a fractional exponent has no rational
    value in general; the butterfly formula is the only place that uses
    it, and it is kept abstract. *)
Variable float_pow : Q -> Q -> Q.

Definition calculate_butterfly_valve_torque (valve : Valve.t) (pressure_bar temperature_c : Q) : Q :=
  let base_torque := float_pow (Valve.size valve) 1.5 * pressure_bar * 0.5 in
  let temp_factor :=
    if py_gt temperature_c 80 then 1.0 + (temperature_c - 80) * 0.007 else 1.0 in
  let seat_factor :=
    if String.eqb (Valve.seat_material valve) "Elastomer" then 0.9
    else if String.eqb (Valve.seat_material valve) "PTFE" then 1.0
    else 1.0 in
  base_torque * temp_factor * seat_factor.

Definition calculate_globe_valve_thrust (valve : Valve.t) (pressure_bar temperature_c : Q) : Q :=
  let area := Valve.get_area valve in
  let dp_force := area * pressure_bar * 100000 in
  let stem_area := math_pi * (Valve.stem_dia_mm valve / 1000 / 2) ^ 2 in
  let packing_force :=
    stem_area * pressure_bar * 100000 * Valve.get_seal_friction valve in
  let seat_force := Valve.size valve * 1000 in
  let temp_factor :=
    if py_gt temperature_c 150 then 1.0 + (temperature_c - 150) * 0.002 else 1.0 in
  (dp_force + packing_force + seat_force) * temp_factor.

Definition calculate_gate_valve_thrust (valve : Valve.t) (pressure_bar temperature_c : Q) : Q :=
  let area := Valve.get_area valve in
  let dp_force := area * pressure_bar * 100000 in
  let stem_area := math_pi * (Valve.stem_dia_mm valve / 1000 / 2) ^ 2 in
  let packing_force :=
    stem_area * pressure_bar * 100000 * Valve.get_seal_friction valve in
  let wedge_factor := if String.eqb (Valve.type valve) "Gate" then 1.5 else 1.0 in
  let temp_factor :=
    if py_gt temperature_c 200 then 1.0 + (temperature_c - 200) * 0.0015 else 1.0 in
  (dp_force * wedge_factor + packing_force) * temp_factor.

Definition calculate_valve_torque_thrust (valve : Valve.t) (pressure_bar temperature_c : Q)
  : Q * string :=
  if String.eqb (Valve.type valve) "Ball" || String.eqb (Valve.type valve) "Plug" then
    (calculate_ball_valve_torque valve pressure_bar temperature_c, "Torque (Nm)"%string)
  else if String.eqb (Valve.type valve) "Butterfly" then
    (calculate_butterfly_valve_torque valve pressure_bar temperature_c, "Torque (Nm)"%string)
  else if String.eqb (Valve.type valve) "Globe" then
    (calculate_globe_valve_thrust valve pressure_bar temperature_c, "Thrust (N)"%string)
  else if String.eqb (Valve.type valve) "Gate" then
    (calculate_gate_valve_thrust valve pressure_bar temperature_c, "Thrust (N)"%string)
  else if String.eqb (Valve.type valve) "Diaphragm" then
    let area := Valve.get_area valve in
    (area * pressure_bar * 100000 * 1.2, "Thrust (N)"%string)
  else
    (0, "Unknown"%string).

End Calculator.

(** ** Actuator selection logic *)

(** The dict appended for a suitable actuator. *)
Record Candidate : Set := mkCandidate
  { actuator : Actuator.t;
    capability : Q;
    margin : Q }.

(** [list.sort(key=...)]: a stable sort that compares keys with [<] only.
    An element is inserted in front of the first element whose key is not
    smaller, so elements with equal keys keep their order. *)
Section StableSort.

Context {A : Type} (key : A -> Q).

Fixpoint insert_by_key (x : A) (l : list A) : list A :=
  match l with
  | [] => [x]
  | y :: l' =>
      if py_lt (key y) (key x) then y :: insert_by_key x l' else x :: y :: l'
  end.

Definition list_sort (l : list A) : list A :=
  fold_right insert_by_key [] l.

End StableSort.

Section Selection.

Variables (required_value : Q) (value_type : string) (valve : Valve.t)
          (safety_factor : Q) (supply_type : option string).

(** One pass through the body of the [for] loop: [Ok None] is an
    iteration that ends in [continue] or fails the capability test,
    [Ok (Some c)] one that appends [c]. *)
Definition loop_body (actuator : Actuator.t) : result (option Candidate) :=
  if String.eqb value_type "Torque (Nm)" && py_eq (Actuator.torque actuator) 0 then
    Ok None
  else if String.eqb value_type "Thrust (N)" && py_eq (Actuator.thrust actuator) 0 then
    Ok None
  else if truthy supply_type && str_ne supply_type "Any"
          && str_ne supply_type (Actuator.supply actuator) then
    Ok None
  else if py_lt (Actuator.max_pressure actuator) (Valve.max_pressure valve) then
    Ok None
  else if py_gt (Actuator.min_temp actuator) (Valve.min_temp valve)
          || py_lt (Actuator.max_temp actuator) (Valve.max_temp valve) then
    Ok None
  else
    let capability :=
      if String.eqb value_type "Torque (Nm)" then Actuator.torque actuator
      else Actuator.thrust actuator in
    if py_ge capability (required_value * safety_factor) then
      q <- py_div capability (required_value * safety_factor) ;;
      let margin := (q - 1) * 100 in
      Ok (Some (mkCandidate actuator capability margin))
    else
      Ok None.

(** The [for] loop over a catalog, with the list built so far. *)
Fixpoint for_each (catalog : list Actuator.t) (suitable_actuators : list Candidate)
  : result (list Candidate) :=
  match catalog with
  | [] => Ok suitable_actuators
  | actuator :: rest =>
      r <- loop_body actuator ;;
      match r with
      | None => for_each rest suitable_actuators
      | Some c => for_each rest (suitable_actuators ++ [c])
      end
  end.

(** The function body, with the global catalog it reads made explicit. *)
Definition find_suitable_actuators_in (catalog : list Actuator.t)
  : result (list Candidate) :=
  suitable_actuators <- for_each catalog [] ;;
  Ok (list_sort capability suitable_actuators).

End Selection.

Definition find_suitable_actuators (required_value : Q) (value_type : string)
  (valve : Valve.t) (safety_factor : Q) (supply_type : option string)
  : result (list Candidate) :=
  find_suitable_actuators_in required_value value_type valve safety_factor supply_type
    ACTUATOR_DATABASE.

(** ** Vocabulary of the statements *)

(** The rating the loop reads as [capability]: the torque for a torque
    request, the thrust otherwise. *)
Definition rated (value_type : string) (a : Actuator.t) : Q :=
  if String.eqb value_type "Torque (Nm)" then Actuator.torque a else Actuator.thrust a.

(** The catalog entries for which the loop body appends a candidate. *)
Definition appended (required_value : Q) (value_type : string) (valve : Valve.t)
  (safety_factor : Q) (supply_type : option string) (a : Actuator.t) : bool :=
  match loop_body required_value value_type valve safety_factor supply_type a with
  | Ok (Some _) => true
  | _ => false
  end.

(** A catalog entry with another price, and a candidate that refers to it. *)
Definition set_price (p : Actuator.t -> Q) (a : Actuator.t) : Actuator.t :=
  Actuator.mk (Actuator.model a) (Actuator.manufacturer a) (Actuator.torque a)
    (Actuator.thrust a) (Actuator.max_pressure a) (Actuator.min_temp a)
    (Actuator.max_temp a) (Actuator.power a) (Actuator.supply a)
    (Actuator.weight a) (p a).

Definition reprice (p : Actuator.t -> Q) (c : Candidate) : Candidate :=
  mkCandidate (set_price p (actuator c)) (capability c) (margin c).

Definition map_result {A B : Type} (f : A -> B) (r : result A) : result B :=
  match r with
  | Ok a => Ok (f a)
  | Raise e => Raise e
  end.

(** The seat factor of the ball/plug formula as the specification words it. *)
Definition seat_factor_spec (seat_material : string) : Q :=
  if String.eqb seat_material "Metal" then 1.3
  else if String.eqb seat_material "Graphite" then 1.1
  else 1.0.

(** Catalog entries and inputs the examples use. *)
Definition ball_2in_ptfe : Valve.t := Valve.mk 2 "Ball" 600 "PTFE" 20 100 0 200 (-20).
Definition ball_2in_metal : Valve.t := Valve.mk 2 "Ball" 600 "Metal" 20 100 0 200 (-20).
Definition butterfly_6in : Valve.t := Valve.mk 6 "Butterfly" 300 "Elastomer" 40 40 0 150 (-10).
Definition gate_6in : Valve.t := Valve.mk 6 "Gate" 600 "Graphite" 35 100 0 400 (-30).
Definition IQT_300 : Actuator.t :=
  Actuator.mk "IQT-300" "Rotork" 3000 0 100 (-40) 150 0.75 "Electric" 40 6500.

Definition needle_1in : Valve.t := Valve.mk 1 "Needle" 600 "PTFE" 10 100 0 200 (-20).

(** A butterfly valve rated to 100 degrees only, for which two actuators of
    2000 Nm are both acceptable. *)
Definition butterfly_6in_100C : Valve.t :=
  Valve.mk 6 "Butterfly" 300 "Elastomer" 40 40 0 100 (-10).

(** The candidate returned for a 160 Nm request on the 6 inch butterfly
    valve with the standard safety factor. *)
Definition IQT_300_candidate : Candidate :=
  mkCandidate IQT_300 3000 (28000000 # 20000).

(** The candidates returned for the same request on [butterfly_6in_100C]. *)
Definition candidates_100C : list Candidate :=
  Eval vm_compute in
    match find_suitable_actuators 160 "Torque (Nm)" butterfly_6in_100C 1.25 None with
    | Ok res => res
    | Raise _ => []
    end.

(** ** Further parts of the source *)

(** [d[k]] on a dict given as its list of items; [None] stands for the
    missing key. *)
Fixpoint dict_lookup {V : Type} (d : list (string * V)) (k : string) : option V :=
  match d with
  | [] => None
  | (k', v) :: d' => if String.eqb k' k then Some v else dict_lookup d' k
  end.

Definition VALVE_TYPES : list (string * list (string * string)) :=
  [ ("Ball", [("torque_type", "Rotary"); ("thrust_type", "None")]);
    ("Butterfly", [("torque_type", "Rotary"); ("thrust_type", "None")]);
    ("Globe", [("torque_type", "None"); ("thrust_type", "Linear")]);
    ("Gate", [("torque_type", "None"); ("thrust_type", "Linear")]);
    ("Plug", [("torque_type", "Rotary"); ("thrust_type", "None")]);
    ("Diaphragm", [("torque_type", "None"); ("thrust_type", "Linear")]) ]%string.

(** The status that [main] shows beside a recommended actuator, with the
    style class it assigns: the [if]/[elif]/[else] on the margin in the
    loop over the suitable actuators. *)
Definition margin_status (margin : Q) : string * string :=
  if py_gt margin 50 then ("Over-sized", "status-yellow")%string
  else if py_gt margin 20 then ("Well-sized", "status-green")%string
  else ("Minimal margin", "status-red")%string.

(** What [main] does between the two tabs: the requirement and its unit
    are computed for the selected valve and handed, with the resolved
    safety factor and the supply choice, to the selection. *)
Definition select_for_conditions (float_pow : Q -> Q -> Q) (selected_valve : Valve.t)
  (pressure temperature sf_value : Q) (supply_type : option string)
  : result (list Candidate) :=
  let '(required_value, value_type) :=
    calculate_valve_torque_thrust float_pow selected_valve pressure temperature in
  find_suitable_actuators required_value value_type selected_valve sf_value supply_type.

(** ** Vocabulary of the further statements *)

(** The four guards of the loop body that end in [continue], negated. *)
Definition compatible (value_type : string) (valve : Valve.t)
  (supply_type : option string) (a : Actuator.t) : bool :=
  negb (String.eqb value_type "Torque (Nm)" && py_eq (Actuator.torque a) 0)
  && negb (String.eqb value_type "Thrust (N)" && py_eq (Actuator.thrust a) 0)
  && negb (truthy supply_type && str_ne supply_type "Any"
           && str_ne supply_type (Actuator.supply a))
  && negb (py_lt (Actuator.max_pressure a) (Valve.max_pressure valve))
  && negb (py_gt (Actuator.min_temp a) (Valve.min_temp valve)
           || py_lt (Actuator.max_temp a) (Valve.max_temp valve)).

(** The same, spelled out. *)
Definition Compatible (value_type : string) (valve : Valve.t)
  (supply_type : option string) (a : Actuator.t) : Prop :=
  (value_type = "Torque (Nm)"%string -> ~ Actuator.torque a == 0)
  /\ (value_type = "Thrust (N)"%string -> ~ Actuator.thrust a == 0)
  /\ (supply_type = None \/ supply_type = Some EmptyString
      \/ supply_type = Some "Any"%string
      \/ supply_type = Some (Actuator.supply a))
  /\ Valve.max_pressure valve <= Actuator.max_pressure a
  /\ Actuator.min_temp a <= Valve.min_temp valve
  /\ Valve.max_temp valve <= Actuator.max_temp a.

(** Results used as examples of the further statements. *)
Definition SR_100_candidate : Candidate :=
  Eval vm_compute in hd IQT_300_candidate candidates_100C.

Definition candidates_100C_2000 : list Candidate :=
  Eval vm_compute in
    match find_suitable_actuators 2000 "Torque (Nm)" butterfly_6in_100C 1.25 None with
    | Ok res => res
    | Raise _ => []
    end.

Definition IQT_300_candidate_2000 : Candidate :=
  Eval vm_compute in hd IQT_300_candidate candidates_100C_2000.

Definition diaphragm_10in : Valve.t :=
  Valve.mk 10 "Diaphragm" 150 "Elastomer" 60 16 0 120 (-10).

(** The motion-type guards alone. *)
Definition motion_ok (value_type : string) (a : Actuator.t) : bool :=
  negb (String.eqb value_type "Torque (Nm)" && py_eq (Actuator.torque a) 0)
  && negb (String.eqb value_type "Thrust (N)" && py_eq (Actuator.thrust a) 0).

(** The pressure and temperature guards alone. *)
Definition envelope_ok (valve : Valve.t) (a : Actuator.t) : bool :=
  negb (py_lt (Actuator.max_pressure a) (Valve.max_pressure valve))
  && negb (py_gt (Actuator.min_temp a) (Valve.min_temp valve)
           || py_lt (Actuator.max_temp a) (Valve.max_temp valve)).

(** The unit label as a function of the valve type alone. *)
Definition unit_of_type (ty : string) : string :=
  if String.eqb ty "Ball" || String.eqb ty "Plug" || String.eqb ty "Butterfly"
  then "Torque (Nm)"
  else if String.eqb ty "Globe" || String.eqb ty "Gate" || String.eqb ty "Diaphragm"
  then "Thrust (N)"
  else "Unknown".

(** The temperature up to which a valve type is calculated without
    temperature adjustment; [None] where there is no adjustment at all. *)
Definition temp_threshold (ty : string) : option Q :=
  if String.eqb ty "Ball" || String.eqb ty "Plug" then Some 100
  else if String.eqb ty "Butterfly" then Some 80
  else if String.eqb ty "Globe" then Some 150
  else if String.eqb ty "Gate" then Some 200
  else None.

Definition globe_3in : Valve.t := Valve.mk 3 "Globe" 900 "Graphite" 25 150 0 350 (-50).

(** ** The capability test and the margin in binary64

    The threshold, the quotient and the margin are the only numbers of the
    selection that are not catalog integers.  This module has the loop
    body once more with these three computed in IEEE binary64, as the
    interpreter computes them; the guards compare catalog integers and are
    kept as in [loop_body]. *)
Module Binary64.

Import PrimFloat.

Definition float_of_Z (z : Z) : float :=
  match z with
  | Z0 => zero
  | Zpos _ => of_uint63 (Uint63.of_Z z)
  | Zneg p => opp (of_uint63 (Uint63.of_Z (Zpos p)))
  end.

(** The float denoted by a decimal literal or by an integer: the
    correctly rounded quotient of numerator and denominator. *)
Definition of_Q (q : Q) : float :=
  div (float_of_Z (Qnum q)) (float_of_Z (Zpos (Qden q))).


Definition loop_body (required_value : float) (value_type : string) (valve : Valve.t)
  (safety_factor : float) (supply_type : option string) (actuator : Actuator.t)
  : result (option (Actuator.t * float * float)) :=
  if String.eqb value_type "Torque (Nm)" && py_eq (Actuator.torque actuator) 0 then
    Ok None
  else if String.eqb value_type "Thrust (N)" && py_eq (Actuator.thrust actuator) 0 then
    Ok None
  else if truthy supply_type && str_ne supply_type "Any"
          && str_ne supply_type (Actuator.supply actuator) then
    Ok None
  else if py_lt (Actuator.max_pressure actuator) (Valve.max_pressure valve) then
    Ok None
  else if py_gt (Actuator.min_temp actuator) (Valve.min_temp valve)
          || py_lt (Actuator.max_temp actuator) (Valve.max_temp valve) then
    Ok None
  else
    let capability :=
      of_Q (if String.eqb value_type "Torque (Nm)" then Actuator.torque actuator
            else Actuator.thrust actuator) in
    if leb (mul required_value safety_factor) capability then
      if eqb (mul required_value safety_factor) zero then Raise ZeroDivisionError
      else
        let margin :=
          mul (sub (div capability (mul required_value safety_factor)) one) (of_Q 100) in
        Ok (Some (actuator, capability, margin))
    else
      Ok None.


End Binary64.


(** A number of magnitude at most [10^6], far inside the range in which
    binary64 neither overflows nor underflows on the formulas of this
    file. *)
Definition moderate (x : Q) : Prop := - 1000000 <= x /\ x <= 1000000.

(** * Properties *)

(** ** Comparisons *)

Lemma py_eq_true (x y : Q) : py_eq x y = true <-> x == y.
Proof. apply Qeq_bool_iff. Qed.

Lemma py_eq_false (x y : Q) : py_eq x y = false <-> ~ x == y.
Proof.
  rewrite <- py_eq_true. destruct (py_eq x y); split; congruence.
Qed.

Lemma py_ge_true (x y : Q) : py_ge x y = true <-> y <= x.
Proof. apply Qle_bool_iff. Qed.

Lemma py_lt_false (x y : Q) : py_lt x y = false <-> y <= x.
Proof.
  unfold py_lt. rewrite negb_false_iff. apply Qle_bool_iff.
Qed.

Lemma py_lt_true (x y : Q) : py_lt x y = true <-> x < y.
Proof.
  unfold py_lt. rewrite negb_true_iff. split; intros H.
  - apply Qnot_le_lt. intros Hle. apply Qle_bool_iff in Hle. congruence.
  - destruct (Qle_bool y x) eqn:E; [|reflexivity].
    apply Qle_bool_iff in E. lra.
Qed.

Lemma py_gt_false (x y : Q) : py_gt x y = false <-> x <= y.
Proof. apply py_lt_false. Qed.

Lemma py_gt_true (x y : Q) : py_gt x y = true <-> y < x.
Proof. apply py_lt_true. Qed.

Lemma py_div_Ok (x y q : Q) : py_div x y = Ok q <-> ~ y == 0 /\ q = x / y.
Proof.
  unfold py_div. destruct (py_eq y 0) eqn:E.
  - apply py_eq_true in E. split; [discriminate | tauto].
  - apply py_eq_false in E. split.
    + intros H. injection H as <-. auto.
    + intros [_ ->]. reflexivity.
Qed.

Lemma py_div_Raise (x y : Q) : py_div x y = Raise ZeroDivisionError <-> y == 0.
Proof.
  unfold py_div. destruct (py_eq y 0) eqn:E.
  - apply py_eq_true in E. tauto.
  - apply py_eq_false in E. split; [discriminate | tauto].
Qed.

(** ** The stable sort *)

Section StableSortFacts.

Context {A : Type} (key : A -> Q).

Let le_key (x y : A) : Prop := key x <= key y.

Lemma insert_by_key_perm (x : A) (l : list A) :
  Permutation (insert_by_key key x l) (x :: l).
Proof.
  induction l as [|y l IH]; simpl.
  - apply Permutation_refl.
  - destruct (py_lt (key y) (key x)).
    + eapply perm_trans; [apply perm_skip, IH | apply perm_swap].
    + apply Permutation_refl.
Qed.

Lemma list_sort_perm (l : list A) : Permutation (list_sort key l) l.
Proof.
  induction l as [|x l IH]; simpl.
  - constructor.
  - eapply perm_trans; [apply insert_by_key_perm | apply perm_skip, IH].
Qed.

Lemma insert_by_key_head (x : A) (l : list A) :
  Forall (le_key x) l -> insert_by_key key x l = x :: l.
Proof.
  intros H. destruct l as [|y l]; simpl; [reflexivity|].
  inversion H as [|? ? Hy _]; subst. unfold le_key in Hy.
  apply py_lt_false in Hy. rewrite Hy. reflexivity.
Qed.

Lemma insert_by_key_sorted (x : A) (l : list A) :
  StronglySorted le_key l -> StronglySorted le_key (insert_by_key key x l).
Proof.
  induction 1 as [|y l Hs IH Hy]; simpl.
  - repeat constructor.
  - destruct (py_lt (key y) (key x)) eqn:E.
    + constructor; [exact IH|].
      apply py_lt_true in E.
      eapply Permutation_Forall; [symmetry; apply insert_by_key_perm|].
      constructor; [unfold le_key; lra | exact Hy].
    + apply py_lt_false in E.
      constructor; [constructor; assumption|].
      constructor; [exact E|].
      eapply Forall_impl; [|exact Hy]. unfold le_key. intros z Hz. lra.
Qed.

Lemma list_sort_sorted (l : list A) : StronglySorted le_key (list_sort key l).
Proof.
  induction l as [|x l IH]; simpl.
  - constructor.
  - apply insert_by_key_sorted, IH.
Qed.

(** Elements with one and the same key come out in the order they went in. *)
Lemma insert_by_key_tie (q : Q) (x : A) (l : list A) :
  filter (fun z => py_eq (key z) q) (insert_by_key key x l)
  = filter (fun z => py_eq (key z) q) (x :: l).
Proof.
  induction l as [|y l IH]; [reflexivity|].
  simpl insert_by_key. destruct (py_lt (key y) (key x)) eqn:E; [|reflexivity].
  apply py_lt_true in E.
  change (filter (fun z => py_eq (key z) q) (y :: insert_by_key key x l))
    with (if py_eq (key y) q
          then y :: filter (fun z => py_eq (key z) q) (insert_by_key key x l)
          else filter (fun z => py_eq (key z) q) (insert_by_key key x l)).
  rewrite IH. simpl.
  destruct (py_eq (key y) q) eqn:Ey, (py_eq (key x) q) eqn:Ex; try reflexivity.
  apply py_eq_true in Ey, Ex. lra.
Qed.

Lemma list_sort_stable (q : Q) (l : list A) :
  filter (fun z => py_eq (key z) q) (list_sort key l)
  = filter (fun z => py_eq (key z) q) l.
Proof.
  induction l as [|x l IH]; [reflexivity|].
  simpl list_sort. rewrite insert_by_key_tie. simpl. rewrite IH. reflexivity.
Qed.

(** Dropping elements commutes with the sort. *)
Lemma filter_insert_by_key (p : A -> bool) (x : A) (l : list A) :
  StronglySorted le_key l ->
  filter p (insert_by_key key x l)
  = if p x then insert_by_key key x (filter p l) else filter p l.
Proof.
  induction 1 as [|y l Hs IH Hy].
  - simpl. destruct (p x); reflexivity.
  - cbn [insert_by_key]. destruct (py_lt (key y) (key x)) eqn:E.
    + cbn [filter]. rewrite IH.
      destruct (p y), (p x); cbn [insert_by_key]; rewrite ?E; reflexivity.
    + apply py_lt_false in E.
      change (filter p (x :: y :: l))
        with (if p x then x :: filter p (y :: l) else filter p (y :: l)).
      destruct (p x); [|reflexivity].
      symmetry. apply insert_by_key_head.
      assert (Hall : Forall (le_key x) (y :: l)).
      { constructor; [exact E|].
        eapply Forall_impl; [|exact Hy]. unfold le_key. intros z Hz. lra. }
      apply Forall_forall. intros z Hz.
      apply filter_In in Hz. destruct Hz as [Hz _].
      revert z Hz. apply Forall_forall. exact Hall.
Qed.

Lemma filter_list_sort (p : A -> bool) (l : list A) :
  filter p (list_sort key l) = list_sort key (filter p l).
Proof.
  induction l as [|x l IH]; [reflexivity|].
  simpl. rewrite filter_insert_by_key by apply list_sort_sorted.
  rewrite IH. destruct (p x); reflexivity.
Qed.

End StableSortFacts.

(** Relabelling elements without touching their keys commutes with the sort. *)
Lemma list_sort_map {A B : Type} (key : A -> Q) (key' : B -> Q) (g : A -> B) (l : list A) :
  (forall x, key' (g x) = key x) ->
  list_sort key' (map g l) = map g (list_sort key l).
Proof.
  intros Hk. induction l as [|x l IH]; [reflexivity|].
  simpl. rewrite IH. generalize (list_sort key l) as s.
  induction s as [|y s IHs]; [reflexivity|].
  simpl. rewrite !Hk. destruct (py_lt (key y) (key x)); simpl; [rewrite IHs|]; reflexivity.
Qed.

(** ** The selection loop *)

Section SelectionFacts.

Variables (required_value : Q) (value_type : string) (valve : Valve.t)
          (safety_factor : Q) (supply_type : option string).

Let body := loop_body required_value value_type valve safety_factor supply_type.
Let loop := for_each required_value value_type valve safety_factor supply_type.

(** What is known of a candidate that the loop body appends. *)
Lemma loop_body_Some (a : Actuator.t) (c : Candidate) :
  body a = Ok (Some c) ->
  actuator c = a
  /\ capability c = rated value_type a
  /\ (value_type = "Torque (Nm)"%string -> ~ Actuator.torque a == 0)
  /\ (value_type = "Thrust (N)"%string -> ~ Actuator.thrust a == 0)
  /\ Valve.max_pressure valve <= Actuator.max_pressure a
  /\ Actuator.min_temp a <= Valve.min_temp valve
  /\ Valve.max_temp valve <= Actuator.max_temp a
  /\ required_value * safety_factor <= capability c
  /\ ~ required_value * safety_factor == 0
  /\ margin c = (capability c / (required_value * safety_factor) - 1) * 100.
Proof.
  unfold body, loop_body. fold (rated value_type a). intros H.
  destruct (String.eqb value_type "Torque (Nm)" && py_eq (Actuator.torque a) 0) eqn:E1;
    [discriminate|].
  destruct (String.eqb value_type "Thrust (N)" && py_eq (Actuator.thrust a) 0) eqn:E2;
    [discriminate|].
  destruct (truthy supply_type && str_ne supply_type "Any"
            && str_ne supply_type (Actuator.supply a)); [discriminate|].
  destruct (py_lt (Actuator.max_pressure a) (Valve.max_pressure valve)) eqn:E4;
    [discriminate|].
  destruct (py_gt (Actuator.min_temp a) (Valve.min_temp valve)
            || py_lt (Actuator.max_temp a) (Valve.max_temp valve)) eqn:E5;
    [discriminate|].
  destruct (py_ge (rated value_type a) (required_value * safety_factor)) eqn:E6;
    [|discriminate].
  destruct (py_div (rated value_type a) (required_value * safety_factor)) as [q|e] eqn:E7;
    simpl in H; [|discriminate].
  injection H as <-. simpl.
  apply py_div_Ok in E7. destruct E7 as [Hnz ->].
  apply orb_false_iff in E5. destruct E5 as [E5 E5'].
  apply py_gt_false in E5. apply py_lt_false in E5', E4. apply py_ge_true in E6.
  repeat split; try assumption.
  - intros ->. simpl in E1. apply py_eq_false in E1. exact E1.
  - intros ->. simpl in E2. apply py_eq_false in E2. exact E2.
Qed.

(** The list built so far is only ever extended at its end. *)
Lemma for_each_app (catalog : list Actuator.t) (acc : list Candidate) :
  loop catalog acc = (new <- loop catalog [] ;; Ok (acc ++ new)).
Proof.
  unfold loop. revert acc. induction catalog as [|a rest IH]; intros acc; simpl.
  - rewrite app_nil_r. reflexivity.
  - destruct (loop_body _ _ _ _ _ a) as [[c|]|e]; simpl; [| apply IH | reflexivity].
    rewrite (IH (acc ++ [c])), (IH [c]).
    destruct (for_each _ _ _ _ _ rest []) as [new|e]; simpl; [|reflexivity].
    rewrite <- app_assoc. reflexivity.
Qed.

Lemma for_each_cons (a : Actuator.t) (rest : list Actuator.t) :
  loop (a :: rest) [] =
  (r <- body a ;;
   new <- loop rest [] ;;
   Ok (match r with None => new | Some c => c :: new end)).
Proof.
  unfold loop, body. simpl.
  destruct (loop_body _ _ _ _ _ a) as [[c|]|e]; simpl; [| | reflexivity].
  - fold loop. rewrite (for_each_app rest [c]). reflexivity.
  - destruct (for_each _ _ _ _ _ rest []); reflexivity.
Qed.

(** Every collected candidate was appended for some catalog entry. *)
Lemma for_each_In (catalog : list Actuator.t) (new : list Candidate) (c : Candidate) :
  loop catalog [] = Ok new -> In c new ->
  exists a, In a catalog /\ body a = Ok (Some c).
Proof.
  revert new. induction catalog as [|a rest IH]; intros new H Hin.
  - injection H as <-. destruct Hin.
  - rewrite for_each_cons in H.
    destruct (body a) as [r|e] eqn:Ea; simpl in H; [|discriminate].
    destruct (loop rest []) as [new'|e] eqn:Er; simpl in H; [|discriminate].
    injection H as <-.
    destruct r as [c'|].
    + destruct Hin as [<-|Hin].
      * exists a. split; [left; reflexivity | exact Ea].
      * destruct (IH new' eq_refl Hin) as [a' [Ha' Hb]].
        exists a'. split; [right; exact Ha' | exact Hb].
    + destruct (IH new' eq_refl Hin) as [a' [Ha' Hb]].
      exists a'. split; [right; exact Ha' | exact Hb].
Qed.

(** The collected candidates are those of the accepted entries, in
    catalog order. *)
Lemma for_each_actuators (catalog : list Actuator.t) (new : list Candidate) :
  loop catalog [] = Ok new ->
  map actuator new
  = filter (appended required_value value_type valve safety_factor supply_type) catalog.
Proof.
  revert new. induction catalog as [|a rest IH]; intros new H.
  - injection H as <-. reflexivity.
  - rewrite for_each_cons in H.
    destruct (body a) as [r|e] eqn:Ea; simpl in H; [|discriminate].
    destruct (loop rest []) as [new'|e] eqn:Er; simpl in H; [|discriminate].
    injection H as <-. simpl. unfold appended at 1. fold body. rewrite Ea.
    destruct r as [c'|]; simpl; rewrite (IH new' eq_refl); [|reflexivity].
    apply loop_body_Some in Ea. destruct Ea as [-> _]. reflexivity.
Qed.

(** Every returned candidate was appended for some catalog entry. *)
Lemma find_suitable_actuators_in_In (catalog : list Actuator.t)
  (res : list Candidate) (c : Candidate) :
  find_suitable_actuators_in required_value value_type valve safety_factor supply_type
    catalog = Ok res ->
  In c res ->
  exists a, In a catalog /\ body a = Ok (Some c).
Proof.
  unfold find_suitable_actuators_in. fold loop.
  destruct (loop catalog []) as [new|e] eqn:E; simpl; [|discriminate].
  intros H Hin. injection H as <-.
  apply (for_each_In catalog new c E).
  eapply Permutation_in; [apply list_sort_perm | exact Hin].
Qed.

End SelectionFacts.

(** ** Selection: what is returned *)

(** The valves and the actuator of the examples are catalog entries. *)
Example examples_in_catalogs :
  nth_error VALVE_DATABASE 0 = Some ball_2in_ptfe
  /\ nth_error VALVE_DATABASE 2 = Some butterfly_6in
  /\ nth_error VALVE_DATABASE 5 = Some gate_6in
  /\ nth_error ACTUATOR_DATABASE 2 = Some IQT_300.
Proof. repeat split. Qed.

Example find_suitable_actuators_160 :
  find_suitable_actuators 160 "Torque (Nm)" butterfly_6in 1.25 None
  = Ok [IQT_300_candidate].
Proof. vm_compute. reflexivity. Qed.

(** C1: every candidate that [find_suitable_actuators] returns refers to a
    catalog actuator whose rating of the requested kind is non-zero (torque
    for "Torque (Nm)", thrust for "Thrust (N)") and is the stored
    capability, whose maximum pressure is at least the valve's, whose
    temperature range contains the valve's, and whose capability is at
    least [required_value * safety_factor]. *)
Theorem find_suitable_actuators_compatible
  (required_value : Q) (value_type : string) (valve : Valve.t)
  (safety_factor : Q) (supply_type : option string)
  (res : list Candidate) (c : Candidate) :
  find_suitable_actuators required_value value_type valve safety_factor supply_type
  = Ok res ->
  In c res ->
  In (actuator c) ACTUATOR_DATABASE
  /\ (value_type = "Torque (Nm)"%string ->
      ~ Actuator.torque (actuator c) == 0
      /\ capability c = Actuator.torque (actuator c))
  /\ (value_type = "Thrust (N)"%string ->
      ~ Actuator.thrust (actuator c) == 0
      /\ capability c = Actuator.thrust (actuator c))
  /\ Valve.max_pressure valve <= Actuator.max_pressure (actuator c)
  /\ Actuator.min_temp (actuator c) <= Valve.min_temp valve
  /\ Valve.max_temp valve <= Actuator.max_temp (actuator c)
  /\ required_value * safety_factor <= capability c.
Proof.
  intros H Hin.
  destruct (find_suitable_actuators_in_In _ _ _ _ _ _ _ _ H Hin) as [a [Ha Hb]].
  apply loop_body_Some in Hb.
  destruct Hb as (-> & Hcap & Ht & Hf & Hp & Hlo & Hhi & Hge & _ & _).
  repeat split; try assumption.
  - apply Ht; assumption.
  - rewrite Hcap. subst value_type. reflexivity.
  - apply Hf; assumption.
  - rewrite Hcap. subst value_type. reflexivity.
Qed.

Lemma find_suitable_actuators_compatible_witness :
  In (actuator IQT_300_candidate) ACTUATOR_DATABASE
  /\ ("Torque (Nm)"%string = "Torque (Nm)"%string ->
      ~ Actuator.torque (actuator IQT_300_candidate) == 0
      /\ capability IQT_300_candidate = Actuator.torque (actuator IQT_300_candidate))
  /\ ("Torque (Nm)"%string = "Thrust (N)"%string ->
      ~ Actuator.thrust (actuator IQT_300_candidate) == 0
      /\ capability IQT_300_candidate = Actuator.thrust (actuator IQT_300_candidate))
  /\ Valve.max_pressure butterfly_6in <= Actuator.max_pressure (actuator IQT_300_candidate)
  /\ Actuator.min_temp (actuator IQT_300_candidate) <= Valve.min_temp butterfly_6in
  /\ Valve.max_temp butterfly_6in <= Actuator.max_temp (actuator IQT_300_candidate)
  /\ 160 * 1.25 <= capability IQT_300_candidate.
Proof.
  apply (find_suitable_actuators_compatible 160 "Torque (Nm)" butterfly_6in 1.25 None
           [IQT_300_candidate] IQT_300_candidate).
  - vm_compute. reflexivity.
  - left. reflexivity.
Defined.






(** C10: with [required_value * safety_factor] positive, no returned
    candidate has a negative margin. *)
Theorem find_suitable_actuators_margin_nonneg
  (required_value : Q) (value_type : string) (valve : Valve.t)
  (safety_factor : Q) (supply_type : option string)
  (res : list Candidate) (c : Candidate) :
  find_suitable_actuators required_value value_type valve safety_factor supply_type
  = Ok res ->
  In c res ->
  0 < required_value * safety_factor ->
  0 <= margin c.
Proof.
  intros H Hin Hpos.
  destruct (find_suitable_actuators_in_In _ _ _ _ _ _ _ _ H Hin) as [a [Ha Hb]].
  apply loop_body_Some in Hb.
  destruct Hb as (_ & _ & _ & _ & _ & _ & _ & Hge & _ & Hm).
  assert (Hq : 1 <= capability c / (required_value * safety_factor)).
  { apply Qle_shift_div_l; [exact Hpos | lra]. }
  rewrite Hm. revert Hq.
  generalize (capability c / (required_value * safety_factor)). intros q Hq. lra.
Qed.

Lemma find_suitable_actuators_margin_nonneg_witness :
  0 < 160 * 1.25 /\ 0 <= margin IQT_300_candidate.
Proof.
  split; [reflexivity|].
  apply (find_suitable_actuators_margin_nonneg 160 "Torque (Nm)" butterfly_6in 1.25 None
           [IQT_300_candidate] IQT_300_candidate).
  - vm_compute. reflexivity.
  - left. reflexivity.
  - reflexivity.
Defined.

(** ** Selection: the zero requirement *)

(** With [required_value * safety_factor] zero the function returns only
    if the loop appends nothing. *)
Lemma find_suitable_actuators_zero_returns_nothing
  (required_value : Q) (value_type : string) (valve : Valve.t)
  (safety_factor : Q) (supply_type : option string) (res : list Candidate) :
  required_value * safety_factor == 0 ->
  find_suitable_actuators required_value value_type valve safety_factor supply_type
  = Ok res ->
  res = [].
Proof.
  intros Hz H. destruct res as [|c res]; [reflexivity|]. exfalso.
  destruct (find_suitable_actuators_in_In _ _ _ _ _ _ _ _ H (or_introl eq_refl))
    as [a [Ha Hb]].
  apply loop_body_Some in Hb.
  destruct Hb as (_ & _ & _ & _ & _ & _ & _ & _ & Hnz & _).
  exact (Hnz Hz).
Qed.

(** C3: at [required_value = 0] with the safety factor 1.25, the 6 inch
    butterfly valve and no supply filter, the actuator IQT-300 passes the
    motion-type, supply, pressure and temperature checks, and the call
    ends in [ZeroDivisionError] instead of returning it. *)
Theorem find_suitable_actuators_zero_requirement_raises :
  find_suitable_actuators 0 "Torque (Nm)" butterfly_6in 1.25 None
  = Raise ZeroDivisionError
  /\ find_suitable_actuators 0 "Torque (Nm)" butterfly_6in 1.25 (Some "Any"%string)
     = Raise ZeroDivisionError.
Proof. split; vm_compute; reflexivity. Qed.

(** ** The requirement calculator *)

Lemma temp_factor_max (t t0 k : Q) :
  (if py_gt t t0 then 1.0 + (t - t0) * k else 1.0) == 1 + Qmax 0 (t - t0) * k.
Proof.
  destruct (py_gt t t0) eqn:E.
  - apply py_gt_true in E. rewrite Q.max_r by lra. ring.
  - apply py_gt_false in E. rewrite Q.max_l by lra. ring.
Qed.

Lemma temp_factor_ge_1 (t t0 k : Q) :
  0 <= k -> 1 <= (if py_gt t t0 then 1.0 + (t - t0) * k else 1.0).
Proof.
  intros Hk. destruct (py_gt t t0) eqn:E; [|lra].
  apply py_gt_true in E. nra.
Qed.

Lemma temp_factor_mono (t1 t2 t0 k : Q) :
  0 <= k -> t1 <= t2 ->
  (if py_gt t1 t0 then 1.0 + (t1 - t0) * k else 1.0)
  <= (if py_gt t2 t0 then 1.0 + (t2 - t0) * k else 1.0).
Proof.
  intros Hk Ht.
  destruct (py_gt t1 t0) eqn:E1, (py_gt t2 t0) eqn:E2;
    rewrite ?py_gt_true, ?py_gt_false in *; nra.
Qed.

Lemma seat_factor_pos (valve : Valve.t) : 0 < seat_factor_spec (Valve.seat_material valve).
Proof.
  unfold seat_factor_spec.
  destruct (String.eqb _ "Metal"); [reflexivity|].
  destruct (String.eqb _ "Graphite"); reflexivity.
Qed.

Lemma calculate_ball_valve_torque_eq (valve : Valve.t) (p t : Q) :
  calculate_ball_valve_torque valve p t
  = Valve.size valve * p * 0.8
    * (if py_gt t 100 then 1.0 + (t - 100) * 0.005 else 1.0)
    * seat_factor_spec (Valve.seat_material valve).
Proof. reflexivity. Qed.

Lemma ball_or_plug_dispatch (pow : Q -> Q -> Q) (valve : Valve.t) (p t : Q) :
  Valve.type valve = "Ball"%string \/ Valve.type valve = "Plug"%string ->
  calculate_valve_torque_thrust pow valve p t
  = (calculate_ball_valve_torque valve p t, "Torque (Nm)"%string).
Proof.
  unfold calculate_valve_torque_thrust. intros [-> | ->]; reflexivity.
Qed.

(** C2: for a Ball or Plug valve the calculator returns
    [size * pressure * 0.8 * (1 + max(0, temperature - 100) * 0.005) * seat_factor]
    with the unit "Torque (Nm)", the seat factor being 1.3 for Metal, 1.1
    for Graphite and 1.0 otherwise; the 2 inch PTFE ball valve at 100 bar
    and 20 degrees gives 160, and 208 with a Metal seat. *)
Theorem calculate_valve_torque_thrust_ball_plug (pow : Q -> Q -> Q) :
  (forall (valve : Valve.t) (pressure_bar temperature_c : Q),
      Valve.type valve = "Ball"%string \/ Valve.type valve = "Plug"%string ->
      fst (calculate_valve_torque_thrust pow valve pressure_bar temperature_c)
      == Valve.size valve * pressure_bar * 0.8
         * (1 + Qmax 0 (temperature_c - 100) * 0.005)
         * seat_factor_spec (Valve.seat_material valve)
      /\ snd (calculate_valve_torque_thrust pow valve pressure_bar temperature_c)
         = "Torque (Nm)"%string)
  /\ (fst (calculate_valve_torque_thrust pow ball_2in_ptfe 100 20) == 160
      /\ snd (calculate_valve_torque_thrust pow ball_2in_ptfe 100 20)
         = "Torque (Nm)"%string)
  /\ (fst (calculate_valve_torque_thrust pow ball_2in_metal 100 20) == 208
      /\ snd (calculate_valve_torque_thrust pow ball_2in_metal 100 20)
         = "Torque (Nm)"%string).
Proof.
  split; [|split; split; reflexivity].
  intros valve p t Hty. rewrite (ball_or_plug_dispatch pow valve p t Hty). simpl.
  split; [|reflexivity].
  rewrite calculate_ball_valve_torque_eq, temp_factor_max. reflexivity.
Qed.

Lemma calculate_valve_torque_thrust_ball_plug_witness :
  (Valve.type ball_2in_metal = "Ball"%string \/ Valve.type ball_2in_metal = "Plug"%string)
  /\ fst (calculate_valve_torque_thrust (fun x _ => x) ball_2in_metal 100 150)
     == Valve.size ball_2in_metal * 100 * 0.8
        * (1 + Qmax 0 (150 - 100) * 0.005)
        * seat_factor_spec (Valve.seat_material ball_2in_metal)
  /\ snd (calculate_valve_torque_thrust (fun x _ => x) ball_2in_metal 100 150)
     = "Torque (Nm)"%string.
Proof.
  split; [left; reflexivity|].
  apply (proj1 (calculate_valve_torque_thrust_ball_plug (fun x _ => x))
           ball_2in_metal 100 150).
  left. reflexivity.
Defined.

(** C7: for a Gate valve the calculator returns
    [(bore_area * pressure * 1e5 * 1.5 + stem_area * pressure * 1e5 * seal_friction)
     * (1 + max(0, temperature - 200) * 0.0015)]
    with the unit "Thrust (N)": the factor 1.5 multiplies the
    differential-pressure term only. *)
Theorem calculate_valve_torque_thrust_gate
  (pow : Q -> Q -> Q) (valve : Valve.t) (pressure_bar temperature_c : Q) :
  Valve.type valve = "Gate"%string ->
  let bore_area := Valve.get_area valve in
  let stem_area := math_pi * (Valve.stem_dia_mm valve / 1000 / 2) ^ 2 in
  let seal_friction := Valve.get_seal_friction valve in
  fst (calculate_valve_torque_thrust pow valve pressure_bar temperature_c)
  == (bore_area * pressure_bar * 100000 * 1.5
      + stem_area * pressure_bar * 100000 * seal_friction)
     * (1 + Qmax 0 (temperature_c - 200) * 0.0015)
  /\ snd (calculate_valve_torque_thrust pow valve pressure_bar temperature_c)
     = "Thrust (N)"%string.
Proof.
  intros Hty. unfold calculate_valve_torque_thrust, calculate_gate_valve_thrust.
  rewrite Hty. simpl. split; [|reflexivity].
  rewrite temp_factor_max. reflexivity.
Qed.

Lemma calculate_valve_torque_thrust_gate_witness :
  Valve.type gate_6in = "Gate"%string
  /\ fst (calculate_valve_torque_thrust (fun x _ => x) gate_6in 50 300)
     == (Valve.get_area gate_6in * 50 * 100000 * 1.5
         + math_pi * (Valve.stem_dia_mm gate_6in / 1000 / 2) ^ 2 * 50 * 100000
           * Valve.get_seal_friction gate_6in)
        * (1 + Qmax 0 (300 - 200) * 0.0015)
  /\ snd (calculate_valve_torque_thrust (fun x _ => x) gate_6in 50 300)
     = "Thrust (N)"%string.
Proof.
  split; [reflexivity|].
  apply (calculate_valve_torque_thrust_gate (fun x _ => x) gate_6in 50 300).
  reflexivity.
Defined.

(** C8: for a Ball or Plug valve of non-negative size, the requirement does
    not decrease when the pressure grows (pressures from 0, temperature
    fixed), nor when the temperature grows above 100 degrees (pressure
    fixed and non-negative). *)
Theorem calculate_valve_torque_thrust_ball_plug_monotone
  (pow : Q -> Q -> Q) (valve : Valve.t) :
  Valve.type valve = "Ball"%string \/ Valve.type valve = "Plug"%string ->
  0 <= Valve.size valve ->
  (forall p1 p2 t : Q,
      0 <= p1 -> p1 <= p2 ->
      fst (calculate_valve_torque_thrust pow valve p1 t)
      <= fst (calculate_valve_torque_thrust pow valve p2 t))
  /\ (forall p t1 t2 : Q,
         0 <= p -> 100 < t1 -> t1 <= t2 ->
         fst (calculate_valve_torque_thrust pow valve p t1)
         <= fst (calculate_valve_torque_thrust pow valve p t2)).
Proof.
  intros Hty Hsize.
  pose proof (seat_factor_pos valve) as Hseat.
  split.
  - intros p1 p2 t Hp1 Hp.
    rewrite !(ball_or_plug_dispatch pow valve _ t Hty). simpl.
    rewrite !calculate_ball_valve_torque_eq.
    pose proof (temp_factor_ge_1 t 100 0.005 ltac:(lra)) as Htf.
    apply Qmult_le_compat_r; [|lra].
    apply Qmult_le_compat_r; [|lra].
    apply Qmult_le_compat_r; [|lra].
    rewrite !(Qmult_comm (Valve.size valve)).
    apply Qmult_le_compat_r; assumption.
  - intros p t1 t2 Hp _ Ht.
    rewrite !(ball_or_plug_dispatch pow valve p _ Hty). simpl.
    rewrite !calculate_ball_valve_torque_eq.
    pose proof (temp_factor_mono t1 t2 100 0.005 ltac:(lra) Ht) as Htf.
    apply Qmult_le_compat_r; [|lra].
    rewrite !(Qmult_comm (Valve.size valve * p * 0.8)).
    apply Qmult_le_compat_r; [exact Htf|].
    apply Qmult_le_0_compat; [|lra].
    apply Qmult_le_0_compat; assumption.
Qed.

Lemma calculate_valve_torque_thrust_ball_plug_monotone_witness :
  fst (calculate_valve_torque_thrust (fun x _ => x) ball_2in_metal 10 120)
  <= fst (calculate_valve_torque_thrust (fun x _ => x) ball_2in_metal 100 120)
  /\ fst (calculate_valve_torque_thrust (fun x _ => x) ball_2in_metal 100 120)
     <= fst (calculate_valve_torque_thrust (fun x _ => x) ball_2in_metal 100 180).
Proof.
  assert (Hty : Valve.type ball_2in_metal = "Ball"%string
                \/ Valve.type ball_2in_metal = "Plug"%string)
    by (left; reflexivity).
  assert (Hsize : 0 <= Valve.size ball_2in_metal) by (vm_compute; discriminate).
  destruct (calculate_valve_torque_thrust_ball_plug_monotone
              (fun x _ => x) ball_2in_metal Hty Hsize) as [Hp Ht].
  split.
  - apply Hp; vm_compute; discriminate.
  - apply Ht; vm_compute; try discriminate; reflexivity.
Defined.

(** C9: for a valve whose type is none of Ball, Plug, Butterfly, Globe,
    Gate and Diaphragm the calculator returns [(0, "Unknown")]; it is a
    total function, so there is no error to raise. *)
Theorem calculate_valve_torque_thrust_unknown
  (pow : Q -> Q -> Q) (valve : Valve.t) (pressure_bar temperature_c : Q) :
  Valve.type valve <> "Ball"%string ->
  Valve.type valve <> "Plug"%string ->
  Valve.type valve <> "Butterfly"%string ->
  Valve.type valve <> "Globe"%string ->
  Valve.type valve <> "Gate"%string ->
  Valve.type valve <> "Diaphragm"%string ->
  calculate_valve_torque_thrust pow valve pressure_bar temperature_c
  = (0, "Unknown"%string).
Proof.
  intros H1 H2 H3 H4 H5 H6. unfold calculate_valve_torque_thrust.
  apply String.eqb_neq in H1, H2, H3, H4, H5, H6.
  rewrite H1, H2, H3, H4, H5, H6. reflexivity.
Qed.

Lemma calculate_valve_torque_thrust_unknown_witness :
  calculate_valve_torque_thrust (fun x _ => x) needle_1in 50 20 = (0, "Unknown"%string).
Proof.
  apply (calculate_valve_torque_thrust_unknown (fun x _ => x) needle_1in 50 20);
    discriminate.
Defined.

(** ** Selection: the supply filter *)

Section SupplyFilter.

Variables (required_value : Q) (value_type : string) (valve : Valve.t)
          (safety_factor : Q).

Let body := loop_body required_value value_type valve safety_factor.
Let loop := for_each required_value value_type valve safety_factor.
Let find := find_suitable_actuators_in required_value value_type valve safety_factor.

Lemma loop_body_supply_off (supply_type : option string) (a : Actuator.t) :
  truthy supply_type && str_ne supply_type "Any" = false ->
  body supply_type a = body None a.
Proof.
  intros Hoff. unfold body, loop_body. rewrite Hoff. reflexivity.
Qed.

Lemma loop_body_supply_on (s : string) (a : Actuator.t) :
  s <> EmptyString -> s <> "Any"%string ->
  body (Some s) a
  = if String.eqb (Actuator.supply a) s then body None a else Ok None.
Proof.
  intros Hne Hany. unfold body, loop_body. simpl truthy. simpl str_ne.
  apply String.eqb_neq in Hne, Hany. rewrite Hne, Hany. simpl negb.
  rewrite (String.eqb_sym s (Actuator.supply a)).
  destruct (String.eqb (Actuator.supply a) s); simpl.
  - reflexivity.
  - destruct (String.eqb value_type "Torque (Nm)" && py_eq (Actuator.torque a) 0);
      [reflexivity|].
    destruct (String.eqb value_type "Thrust (N)" && py_eq (Actuator.thrust a) 0);
      reflexivity.
Qed.

Lemma for_each_supply_off (supply_type : option string)
  (catalog : list Actuator.t) (acc : list Candidate) :
  truthy supply_type && str_ne supply_type "Any" = false ->
  loop supply_type catalog acc = loop None catalog acc.
Proof.
  intros Hoff. unfold loop. revert acc.
  induction catalog as [|a rest IH]; intros acc; simpl; [reflexivity|].
  fold body. rewrite (loop_body_supply_off supply_type a Hoff).
  destruct (body None a) as [[c|]|e]; simpl; auto.
Qed.

Lemma for_each_supply_on (s : string) (catalog : list Actuator.t) (acc : list Candidate) :
  s <> EmptyString -> s <> "Any"%string ->
  loop (Some s) catalog acc
  = loop None (filter (fun a => String.eqb (Actuator.supply a) s) catalog) acc.
Proof.
  intros Hne Hany. unfold loop. revert acc.
  induction catalog as [|a rest IH]; intros acc; simpl; [reflexivity|].
  fold body. rewrite (loop_body_supply_on s a Hne Hany).
  destruct (String.eqb (Actuator.supply a) s); simpl.
  - fold body. destruct (body None a) as [[c|]|e]; simpl; auto.
  - apply IH.
Qed.

(** Restricting the catalog restricts what an unfiltered run collects. *)
Lemma for_each_filter (p : Actuator.t -> bool)
  (catalog : list Actuator.t) (new : list Candidate) :
  loop None catalog [] = Ok new ->
  loop None (filter p catalog) [] = Ok (filter (fun c => p (actuator c)) new).
Proof.
  unfold loop. revert new. induction catalog as [|a rest IH]; intros new H.
  - injection H as <-. reflexivity.
  - rewrite for_each_cons in H.
    destruct (loop_body _ _ _ _ None a) as [r|e] eqn:Ea; simpl in H; [|discriminate].
    destruct (for_each _ _ _ _ None rest []) as [new'|e] eqn:Er;
      simpl in H; [|discriminate].
    injection H as <-. specialize (IH new' eq_refl).
    assert (Hr : match r with Some c => actuator c = a | None => True end).
    { destruct r as [c|]; [|exact I]. apply loop_body_Some in Ea. apply Ea. }
    simpl filter at 1. destruct (p a) eqn:Ep.
    + rewrite for_each_cons, Ea, IH. simpl.
      destruct r as [c|]; [|reflexivity].
      simpl. rewrite Hr, Ep. reflexivity.
    + rewrite IH. destruct r as [c|]; [|reflexivity].
      simpl. rewrite Hr, Ep. reflexivity.
Qed.

Lemma find_supply_off (supply_type : option string) (catalog : list Actuator.t) :
  truthy supply_type && str_ne supply_type "Any" = false ->
  find supply_type catalog = find None catalog.
Proof.
  intros Hoff. unfold find, find_suitable_actuators_in. fold loop.
  rewrite (for_each_supply_off supply_type catalog [] Hoff). reflexivity.
Qed.

Lemma find_supply_on (s : string) (catalog : list Actuator.t) :
  s <> EmptyString -> s <> "Any"%string ->
  find (Some s) catalog
  = find None (filter (fun a => String.eqb (Actuator.supply a) s) catalog).
Proof.
  intros Hne Hany. unfold find, find_suitable_actuators_in. fold loop.
  rewrite (for_each_supply_on s catalog [] Hne Hany). reflexivity.
Qed.

Lemma find_filter (p : Actuator.t -> bool)
  (catalog : list Actuator.t) (res : list Candidate) :
  find None catalog = Ok res ->
  find None (filter p catalog) = Ok (filter (fun c => p (actuator c)) res).
Proof.
  unfold find, find_suitable_actuators_in. fold loop.
  destruct (loop None catalog []) as [new|e] eqn:E; simpl; [|discriminate].
  intros H. injection H as <-.
  rewrite (for_each_filter p catalog new E). simpl.
  rewrite filter_list_sort. reflexivity.
Qed.

End SupplyFilter.

(** C6, as the claim has it, fails: the filter value "any" in lower case is
    a specific supply type for the code, and excludes every actuator. *)
Lemma find_suitable_actuators_any_lowercase :
  find_suitable_actuators 160 "Torque (Nm)" butterfly_6in 1.25 (Some "any"%string)
  <> find_suitable_actuators 160 "Torque (Nm)" butterfly_6in 1.25 None.
Proof. vm_compute. discriminate. Qed.

(** C6, amended: without a filter argument, or with the empty string or
    "Any", no supply filtering is applied; any other string [s] (so
    Pneumatic, Electric and Hydraulic) runs the unfiltered selection on the
    catalog entries whose supply is [s], and when the unfiltered selection
    returns, the filtered one returns its candidates of supply [s], in the
    same order. *)
Theorem find_suitable_actuators_supply_filter
  (required_value : Q) (value_type : string) (valve : Valve.t) (safety_factor : Q) :
  (forall supply_type : option string,
      supply_type = None \/ supply_type = Some EmptyString
      \/ supply_type = Some "Any"%string ->
      find_suitable_actuators required_value value_type valve safety_factor supply_type
      = find_suitable_actuators required_value value_type valve safety_factor None)
  /\ (forall s : string,
         s <> EmptyString -> s <> "Any"%string ->
         find_suitable_actuators required_value value_type valve safety_factor (Some s)
         = find_suitable_actuators_in required_value value_type valve safety_factor None
             (filter (fun a => String.eqb (Actuator.supply a) s) ACTUATOR_DATABASE)
         /\ forall res : list Candidate,
             find_suitable_actuators required_value value_type valve safety_factor None
             = Ok res ->
             find_suitable_actuators required_value value_type valve safety_factor (Some s)
             = Ok (filter (fun c => String.eqb (Actuator.supply (actuator c)) s) res)).
Proof.
  split.
  - intros supply_type H. apply find_supply_off.
    destruct H as [-> | [-> | ->]]; reflexivity.
  - intros s Hne Hany. unfold find_suitable_actuators.
    rewrite (find_supply_on _ _ _ _ s ACTUATOR_DATABASE Hne Hany).
    split; [reflexivity|].
    intros res H.
    apply (find_filter _ _ _ _ (fun a => String.eqb (Actuator.supply a) s)
             ACTUATOR_DATABASE res H).
Qed.

Lemma find_suitable_actuators_supply_filter_witness :
  find_suitable_actuators 160 "Torque (Nm)" butterfly_6in 1.25 (Some "Any"%string)
  = find_suitable_actuators 160 "Torque (Nm)" butterfly_6in 1.25 None
  /\ find_suitable_actuators 160 "Torque (Nm)" butterfly_6in 1.25 (Some "Pneumatic"%string)
     = Ok (filter (fun c => String.eqb (Actuator.supply (actuator c)) "Pneumatic")
             [IQT_300_candidate]).
Proof.
  destruct (find_suitable_actuators_supply_filter 160 "Torque (Nm)" butterfly_6in 1.25)
    as [Hoff Hon].
  split.
  - apply Hoff. right. right. reflexivity.
  - apply (Hon "Pneumatic"%string); [discriminate | discriminate |].
    vm_compute. reflexivity.
Defined.

(** ** Selection: the order of the result *)

Section Ordering.

Variables (required_value : Q) (value_type : string) (valve : Valve.t)
          (safety_factor : Q) (supply_type : option string).

Let body := loop_body required_value value_type valve safety_factor supply_type.
Let loop := for_each required_value value_type valve safety_factor supply_type.
Let find :=
  find_suitable_actuators_in required_value value_type valve safety_factor supply_type.
Let accepted := appended required_value value_type valve safety_factor supply_type.

(** The loop body never reads the price. *)
Lemma loop_body_set_price (p : Actuator.t -> Q) (a : Actuator.t) :
  body (set_price p a) = map_result (option_map (reprice p)) (body a).
Proof.
  unfold body, loop_body, set_price. simpl.
  repeat match goal with
         | |- context [if ?b then _ else _] => destruct b; try reflexivity
         end.
  all: unfold py_div;
    destruct (py_eq (required_value * safety_factor) 0); reflexivity.
Qed.

Lemma for_each_set_price (p : Actuator.t -> Q) (catalog : list Actuator.t) :
  loop (map (set_price p) catalog) [] = map_result (map (reprice p)) (loop catalog []).
Proof.
  induction catalog as [|a rest IH]; [reflexivity|].
  change (map (set_price p) (a :: rest))
    with (set_price p a :: map (set_price p) rest).
  unfold loop in *. rewrite !for_each_cons, IH. fold body.
  rewrite loop_body_set_price.
  destruct (body a) as [[c|]|e]; simpl; [| |reflexivity];
    destruct (for_each _ _ _ _ _ rest []); reflexivity.
Qed.

Lemma find_set_price (p : Actuator.t -> Q) (catalog : list Actuator.t) :
  find (map (set_price p) catalog) = map_result (map (reprice p)) (find catalog).
Proof.
  unfold find, find_suitable_actuators_in. fold loop.
  rewrite for_each_set_price.
  destruct (loop catalog []) as [new|e]; simpl; [|reflexivity].
  rewrite (list_sort_map capability capability (reprice p)); reflexivity.
Qed.

(** The candidates of one capability, before the sort. *)
Lemma for_each_ties (q : Q) (catalog : list Actuator.t) (new : list Candidate) :
  loop catalog [] = Ok new ->
  map actuator (filter (fun c => py_eq (capability c) q) new)
  = filter (fun a => accepted a && py_eq (rated value_type a) q) catalog.
Proof.
  revert new. induction catalog as [|a rest IH]; intros new H.
  - injection H as <-. reflexivity.
  - unfold loop in *. rewrite for_each_cons in H. fold body in H.
    destruct (body a) as [r|e] eqn:Ea; simpl in H; [|discriminate].
    destruct (for_each _ _ _ _ _ rest []) as [new'|e] eqn:Er;
      simpl in H; [|discriminate].
    injection H as <-. specialize (IH new' eq_refl).
    cbn [filter]. unfold accepted at 1, appended. fold body. rewrite Ea.
    destruct r as [c|]; [|exact IH].
    apply loop_body_Some in Ea. destruct Ea as (Hact & Hcap & _).
    cbn [filter andb]. rewrite Hcap.
    destruct (py_eq (rated value_type a) q); cbn [map]; rewrite IH, ?Hact; reflexivity.
Qed.

End Ordering.

(** C5: the returned list is in non-decreasing order of capability; for
    every capability value the returned candidates of that capability are
    the accepted catalog entries of that rating in catalog order; and
    changing the prices in the catalog changes nothing but the prices
    carried in the result. *)
Theorem find_suitable_actuators_sorted
  (required_value : Q) (value_type : string) (valve : Valve.t)
  (safety_factor : Q) (supply_type : option string) (res : list Candidate) :
  find_suitable_actuators required_value value_type valve safety_factor supply_type
  = Ok res ->
  StronglySorted (fun c1 c2 => capability c1 <= capability c2) res
  /\ (forall q : Q,
         map actuator (filter (fun c => py_eq (capability c) q) res)
         = filter (fun a =>
                     appended required_value value_type valve safety_factor supply_type a
                     && py_eq (rated value_type a) q)
             ACTUATOR_DATABASE)
  /\ (forall p : Actuator.t -> Q,
         find_suitable_actuators_in required_value value_type valve safety_factor
           supply_type (map (set_price p) ACTUATOR_DATABASE)
         = Ok (map (reprice p) res)).
Proof.
  unfold find_suitable_actuators. intros H. split; [|split].
  - unfold find_suitable_actuators_in in H.
    destruct (for_each _ _ _ _ _ ACTUATOR_DATABASE []) as [new|e];
      simpl in H; [|discriminate].
    injection H as <-. apply list_sort_sorted.
  - intros q. unfold find_suitable_actuators_in in H.
    destruct (for_each _ _ _ _ _ ACTUATOR_DATABASE []) as [new|e] eqn:E;
      simpl in H; [|discriminate].
    injection H as <-. rewrite list_sort_stable.
    apply (for_each_ties _ _ _ _ _ q ACTUATOR_DATABASE new E).
  - intros p. rewrite find_set_price, H. reflexivity.
Qed.

Example candidates_100C_models :
  map (fun c => (Actuator.model (actuator c), capability c)) candidates_100C
  = [ ("SR-100"%string, 1000); ("SMC-200"%string, 2000); ("E-200"%string, 2000);
      ("IQT-300"%string, 3000); ("SR-500"%string, 5000); ("SMC-800"%string, 8000);
      ("E-1000"%string, 10000) ].
Proof. reflexivity. Qed.

Lemma find_suitable_actuators_sorted_witness :
  find_suitable_actuators 160 "Torque (Nm)" butterfly_6in_100C 1.25 None
  = Ok candidates_100C
  /\ StronglySorted (fun c1 c2 => capability c1 <= capability c2) candidates_100C
  /\ (forall q : Q,
         map actuator (filter (fun c => py_eq (capability c) q) candidates_100C)
         = filter (fun a =>
                     appended 160 "Torque (Nm)" butterfly_6in_100C 1.25 None a
                     && py_eq (rated "Torque (Nm)" a) q)
             ACTUATOR_DATABASE)
  /\ (forall p : Actuator.t -> Q,
         find_suitable_actuators_in 160 "Torque (Nm)" butterfly_6in_100C 1.25 None
           (map (set_price p) ACTUATOR_DATABASE)
         = Ok (map (reprice p) candidates_100C)).
Proof.
  split; [vm_compute; reflexivity|].
  apply (find_suitable_actuators_sorted 160 "Torque (Nm)" butterfly_6in_100C 1.25 None
           candidates_100C).
  vm_compute. reflexivity.
Defined.

(** * Further properties *)

(** ** The loop body as one test *)

Lemma loop_body_spec (required_value : Q) (value_type : string) (valve : Valve.t)
  (safety_factor : Q) (supply_type : option string) (a : Actuator.t) :
  loop_body required_value value_type valve safety_factor supply_type a
  = if compatible value_type valve supply_type a
       && py_ge (rated value_type a) (required_value * safety_factor)
    then
      q <- py_div (rated value_type a) (required_value * safety_factor) ;;
      Ok (Some (mkCandidate a (rated value_type a) ((q - 1) * 100)))
    else Ok None.
Proof.
  unfold loop_body, compatible. fold (rated value_type a).
  destruct (String.eqb value_type "Torque (Nm)" && py_eq (Actuator.torque a) 0);
    [reflexivity|].
  destruct (String.eqb value_type "Thrust (N)" && py_eq (Actuator.thrust a) 0);
    [reflexivity|].
  destruct (truthy supply_type && str_ne supply_type "Any"
            && str_ne supply_type (Actuator.supply a)); [reflexivity|].
  destruct (py_lt (Actuator.max_pressure a) (Valve.max_pressure valve));
    [reflexivity|].
  destruct (py_gt (Actuator.min_temp a) (Valve.min_temp valve)
            || py_lt (Actuator.max_temp a) (Valve.max_temp valve)); reflexivity.
Qed.

Lemma supply_guard_iff (supply_type : option string) (a : Actuator.t) :
  truthy supply_type && str_ne supply_type "Any"
  && str_ne supply_type (Actuator.supply a) = false
  <-> (supply_type = None \/ supply_type = Some EmptyString
       \/ supply_type = Some "Any"%string
       \/ supply_type = Some (Actuator.supply a)).
Proof.
  destruct supply_type as [s|]; simpl; [|tauto].
  destruct (String.eqb_spec s EmptyString) as [->|Hne]; simpl; [tauto|].
  destruct (String.eqb_spec s "Any") as [->|Hany]; simpl; [tauto|].
  destruct (String.eqb_spec s (Actuator.supply a)) as [->|Hs]; simpl; [tauto|].
  split; [discriminate|].
  intros [H | [H | [H | H]]]; try discriminate; injection H; intros; congruence.
Qed.

Lemma compatible_iff (value_type : string) (valve : Valve.t)
  (supply_type : option string) (a : Actuator.t) :
  compatible value_type valve supply_type a = true
  <-> Compatible value_type valve supply_type a.
Proof.
  unfold compatible, Compatible.
  rewrite !andb_true_iff, !negb_true_iff, orb_false_iff, supply_guard_iff.
  rewrite !py_lt_false, py_gt_false, !andb_false_iff, !py_eq_false.
  split.
  - intros ((((Ht & Hf) & Hs) & Hp) & Hlo & Hhi).
    repeat split; try assumption.
    + intros ->. destruct Ht as [Ht | Ht]; [discriminate Ht | exact Ht].
    + intros ->. destruct Hf as [Hf | Hf]; [discriminate Hf | exact Hf].
  - intros (Ht & Hf & Hs & Hp & Hlo & Hhi).
    repeat split; try assumption.
    + destruct (String.eqb_spec value_type "Torque (Nm)"); [right; auto | left; reflexivity].
    + destruct (String.eqb_spec value_type "Thrust (N)"); [right; auto | left; reflexivity].
Qed.

Lemma loop_body_Some_iff (required_value : Q) (value_type : string) (valve : Valve.t)
  (safety_factor : Q) (supply_type : option string) (a : Actuator.t) (c : Candidate) :
  loop_body required_value value_type valve safety_factor supply_type a = Ok (Some c)
  <-> Compatible value_type valve supply_type a
      /\ required_value * safety_factor <= rated value_type a
      /\ ~ required_value * safety_factor == 0
      /\ c = mkCandidate a (rated value_type a)
               ((rated value_type a / (required_value * safety_factor) - 1) * 100).
Proof.
  rewrite loop_body_spec, <- compatible_iff, <- py_ge_true.
  destruct (compatible value_type valve supply_type a); simpl.
  - destruct (py_ge (rated value_type a) (required_value * safety_factor)).
    + unfold py_div.
      destruct (py_eq (required_value * safety_factor) 0) eqn:E; simpl.
      * apply py_eq_true in E. split; [discriminate | tauto].
      * apply py_eq_false in E. split.
        -- intros H. injection H as <-. auto.
        -- intros (_ & _ & _ & ->). reflexivity.
    + split; [discriminate | intros (_ & H & _); discriminate H].
  - split; [discriminate | intros (H & _); discriminate H].
Qed.

Lemma loop_body_Raise_iff (required_value : Q) (value_type : string) (valve : Valve.t)
  (safety_factor : Q) (supply_type : option string) (a : Actuator.t) (e : exn) :
  loop_body required_value value_type valve safety_factor supply_type a = Raise e
  <-> Compatible value_type valve supply_type a
      /\ required_value * safety_factor == 0
      /\ 0 <= rated value_type a.
Proof.
  rewrite loop_body_spec, <- compatible_iff.
  destruct (compatible value_type valve supply_type a); simpl.
  - destruct (py_ge (rated value_type a) (required_value * safety_factor)) eqn:G.
    + apply py_ge_true in G. unfold py_div.
      destruct (py_eq (required_value * safety_factor) 0) eqn:E; simpl.
      * apply py_eq_true in E. destruct e. split; [|reflexivity].
        intros _. repeat split; [exact E | lra].
      * apply py_eq_false in E. split; [discriminate | tauto].
    + split; [discriminate|]. intros (_ & Hz & Hr).
      assert (G' : py_ge (rated value_type a) (required_value * safety_factor) = true)
        by (apply py_ge_true; lra).
      congruence.
  - split; [discriminate | intros (H & _); discriminate H].
Qed.

Section LoopOutcome.

Variables (required_value : Q) (value_type : string) (valve : Valve.t)
          (safety_factor : Q) (supply_type : option string).

Let body := loop_body required_value value_type valve safety_factor supply_type.
Let loop := for_each required_value value_type valve safety_factor supply_type.

(** A candidate appended for a catalog entry is in the collected list. *)
Lemma for_each_complete (catalog : list Actuator.t) (new : list Candidate)
  (a : Actuator.t) (c : Candidate) :
  loop catalog [] = Ok new -> In a catalog -> body a = Ok (Some c) -> In c new.
Proof.
  revert new. induction catalog as [|a' rest IH]; intros new H Hin Hb; [destruct Hin|].
  unfold loop in H. rewrite for_each_cons in H. fold body loop in H.
  destruct (body a') as [r|e] eqn:Ea; simpl in H; [|discriminate].
  destruct (loop rest []) as [new'|e] eqn:Er; simpl in H; [|discriminate].
  injection H as <-. destruct Hin as [->|Hin].
  - rewrite Hb in Ea. injection Ea as <-. left. reflexivity.
  - specialize (IH new' eq_refl Hin Hb). destruct r; [right|]; exact IH.
Qed.

(** The loop ends in an exception exactly when some iteration does. *)
Lemma for_each_Raise_iff (catalog : list Actuator.t) (e : exn) :
  loop catalog [] = Raise e <-> exists a, In a catalog /\ body a = Raise e.
Proof.
  induction catalog as [|a rest IH].
  - split; [discriminate | intros [a [[] _]]].
  - unfold loop. rewrite for_each_cons. fold body loop.
    destruct (body a) as [r|e'] eqn:Ea; simpl.
    + destruct (loop rest []) as [new|e''] eqn:Er; simpl.
      * split; [discriminate|]. intros [a' [[<-|Hin] Hb]]; [congruence|].
        assert (Hr : Ok new = Raise e) by (apply IH; exists a'; auto).
        discriminate Hr.
      * destruct e, e''. split; [|reflexivity]. intros _.
        destruct (proj1 IH eq_refl) as [a' [Hin Hb]].
        exists a'. split; [right; exact Hin | exact Hb].
    + destruct e, e'. split; [|reflexivity]. intros _.
      exists a. split; [left; reflexivity | exact Ea].
Qed.

End LoopOutcome.

(** ** Selection: exactly the adequate actuators, or an exception *)

Lemma find_suitable_actuators_in_Ok (required_value : Q) (value_type : string)
  (valve : Valve.t) (safety_factor : Q) (supply_type : option string)
  (catalog : list Actuator.t) (res : list Candidate) :
  find_suitable_actuators_in required_value value_type valve safety_factor supply_type
    catalog = Ok res
  <-> exists new,
      for_each required_value value_type valve safety_factor supply_type catalog []
      = Ok new
      /\ res = list_sort capability new.
Proof.
  unfold find_suitable_actuators_in.
  destruct (for_each _ _ _ _ _ catalog []) as [new|e]; simpl.
  - split.
    + intros H. injection H as <-. exists new. auto.
    + intros [new' [H ->]]. injection H as ->. reflexivity.
  - split; [discriminate | intros [new' [H _]]; discriminate H].
Qed.

Lemma find_suitable_actuators_in_Raise (required_value : Q) (value_type : string)
  (valve : Valve.t) (safety_factor : Q) (supply_type : option string)
  (catalog : list Actuator.t) (e : exn) :
  find_suitable_actuators_in required_value value_type valve safety_factor supply_type
    catalog = Raise e
  <-> for_each required_value value_type valve safety_factor supply_type catalog []
      = Raise e.
Proof.
  unfold find_suitable_actuators_in.
  destruct (for_each _ _ _ _ _ catalog []) as [new|e']; simpl.
  - split; discriminate.
  - reflexivity.
Qed.

(** Membership in the result, for any catalog. *)
Lemma find_suitable_actuators_in_member (required_value : Q) (value_type : string)
  (valve : Valve.t) (safety_factor : Q) (supply_type : option string)
  (catalog : list Actuator.t) (res : list Candidate) (c : Candidate) :
  find_suitable_actuators_in required_value value_type valve safety_factor supply_type
    catalog = Ok res ->
  In c res
  <-> In (actuator c) catalog
      /\ Compatible value_type valve supply_type (actuator c)
      /\ required_value * safety_factor <= rated value_type (actuator c)
      /\ c = mkCandidate (actuator c) (rated value_type (actuator c))
               ((rated value_type (actuator c) / (required_value * safety_factor) - 1)
                * 100).
Proof.
  intros H. apply find_suitable_actuators_in_Ok in H. destruct H as [new [Hnew ->]].
  split.
  - intros Hin. apply (Permutation_in _ (list_sort_perm capability new)) in Hin.
    destruct (for_each_In _ _ _ _ _ _ _ _ Hnew Hin) as [a [Ha Hb]].
    apply loop_body_Some_iff in Hb. destruct Hb as (Hc & Hge & Hnz & ->).
    simpl. auto.
  - intros (Hin & Hc & Hge & Heq).
    apply (Permutation_in _ (Permutation_sym (list_sort_perm capability new))).
    apply (for_each_complete _ _ _ _ _ catalog new (actuator c) c Hnew Hin).
    apply loop_body_Some_iff. repeat split; try apply Hc; try assumption.
    intros Hz.
    assert (Hr : for_each required_value value_type valve safety_factor supply_type
                   catalog [] = Raise ZeroDivisionError).
    { apply for_each_Raise_iff. exists (actuator c). split; [exact Hin|].
      apply loop_body_Raise_iff. repeat split; try apply Hc; [exact Hz | lra]. }
    congruence.
Qed.

(** An adequate catalog entry has its candidate in the result. *)
Lemma find_suitable_actuators_in_adequate (required_value : Q) (value_type : string)
  (valve : Valve.t) (safety_factor : Q) (supply_type : option string)
  (catalog : list Actuator.t) (res : list Candidate) (a : Actuator.t) :
  find_suitable_actuators_in required_value value_type valve safety_factor supply_type
    catalog = Ok res ->
  In a catalog ->
  Compatible value_type valve supply_type a ->
  required_value * safety_factor <= rated value_type a ->
  exists c, In c res /\ actuator c = a /\ capability c = rated value_type a.
Proof.
  intros H Hin Hc Hge.
  exists (mkCandidate a (rated value_type a)
            ((rated value_type a / (required_value * safety_factor) - 1) * 100)).
  split; [|split; reflexivity].
  apply (find_suitable_actuators_in_member _ _ _ _ _ _ _ _ H). simpl. auto.
Qed.

(** With a non-zero threshold no iteration divides by zero. *)
Lemma find_suitable_actuators_in_returns (required_value : Q) (value_type : string)
  (valve : Valve.t) (safety_factor : Q) (supply_type : option string)
  (catalog : list Actuator.t) :
  ~ required_value * safety_factor == 0 ->
  exists res,
    find_suitable_actuators_in required_value value_type valve safety_factor supply_type
      catalog = Ok res.
Proof.
  intros Hnz.
  destruct (find_suitable_actuators_in required_value value_type valve safety_factor
              supply_type catalog) as [res|e] eqn:E.
  - exists res. reflexivity.
  - exfalso. apply find_suitable_actuators_in_Raise in E.
    apply for_each_Raise_iff in E. destruct E as [a [_ Hb]].
    apply loop_body_Raise_iff in Hb. apply Hnz, Hb.
Qed.

(** When the selection ends in an exception, for any catalog. *)
Lemma find_suitable_actuators_in_Raise_iff (required_value : Q) (value_type : string)
  (valve : Valve.t) (safety_factor : Q) (supply_type : option string)
  (catalog : list Actuator.t) :
  find_suitable_actuators_in required_value value_type valve safety_factor supply_type
    catalog = Raise ZeroDivisionError
  <-> required_value * safety_factor == 0
      /\ exists a, In a catalog
                   /\ Compatible value_type valve supply_type a
                   /\ 0 <= rated value_type a.
Proof.
  rewrite find_suitable_actuators_in_Raise, for_each_Raise_iff. split.
  - intros [a [Hin Hb]]. apply loop_body_Raise_iff in Hb.
    destruct Hb as (Hc & Hz & Hr). split; [exact Hz|]. exists a. auto.
  - intros [Hz [a (Hin & Hc & Hr)]]. exists a. split; [exact Hin|].
    apply loop_body_Raise_iff. auto.
Qed.

(** X1: when the selection returns, an actuator is referred to by a
    returned candidate exactly if it is a catalog entry that passes the
    four guards and whose rating reaches the threshold. *)
Theorem find_suitable_actuators_exactly_adequate
  (required_value : Q) (value_type : string) (valve : Valve.t)
  (safety_factor : Q) (supply_type : option string)
  (res : list Candidate) (a : Actuator.t) :
  find_suitable_actuators required_value value_type valve safety_factor supply_type
  = Ok res ->
  (exists c, In c res /\ actuator c = a /\ capability c = rated value_type a)
  <-> In a ACTUATOR_DATABASE
      /\ Compatible value_type valve supply_type a
      /\ required_value * safety_factor <= rated value_type a.
Proof.
  intros H. split.
  - intros [c [Hin [<- _]]].
    apply (find_suitable_actuators_in_member _ _ _ _ _ _ _ c H) in Hin. tauto.
  - intros (Hin & Hc & Hge).
    apply (find_suitable_actuators_in_adequate _ _ _ _ _ _ _ _ H Hin Hc Hge).
Qed.

Lemma find_suitable_actuators_exactly_adequate_witness :
  (exists c, In c [IQT_300_candidate] /\ actuator c = IQT_300
             /\ capability c = rated "Torque (Nm)" IQT_300)
  <-> In IQT_300 ACTUATOR_DATABASE
      /\ Compatible "Torque (Nm)" butterfly_6in None IQT_300
      /\ 160 * 1.25 <= rated "Torque (Nm)" IQT_300.
Proof.
  apply (find_suitable_actuators_exactly_adequate 160 "Torque (Nm)" butterfly_6in 1.25
           None [IQT_300_candidate] IQT_300).
  vm_compute. reflexivity.
Defined.

(** X2: when the selection ends in [ZeroDivisionError], some catalog
    entry with a non-negative rating passes the four guards; it does end so
    whenever there is such an entry and the requirement or the safety
    factor is zero; and it returns a list whenever the threshold
    [required_value * safety_factor] is at least [2 ^ -1022] in absolute
    value (the smallest normal binary64 number, so that the product the
    code computes is not zero either); the last two for a requirement and
    a safety factor of moderate size. *)
Theorem find_suitable_actuators_raise_conditions
  (required_value : Q) (value_type : string) (valve : Valve.t)
  (safety_factor : Q) (supply_type : option string) :
  (find_suitable_actuators required_value value_type valve safety_factor supply_type
   = Raise ZeroDivisionError ->
   exists a, In a ACTUATOR_DATABASE
             /\ Compatible value_type valve supply_type a
             /\ 0 <= rated value_type a)
  /\ (moderate required_value -> moderate safety_factor ->
      required_value == 0 \/ safety_factor == 0 ->
      (exists a, In a ACTUATOR_DATABASE
                 /\ Compatible value_type valve supply_type a
                 /\ 0 <= rated value_type a) ->
      find_suitable_actuators required_value value_type valve safety_factor supply_type
      = Raise ZeroDivisionError)
  /\ (moderate required_value -> moderate safety_factor ->
      2 ^ (-1022) <= required_value * safety_factor
      \/ required_value * safety_factor <= - 2 ^ (-1022) ->
      exists res,
        find_suitable_actuators required_value value_type valve safety_factor supply_type
        = Ok res).
Proof.
  split; [|split].
  - intros H. apply find_suitable_actuators_in_Raise_iff in H. apply H.
  - intros _ _ Hz Hex. apply find_suitable_actuators_in_Raise_iff. split; [|exact Hex].
    destruct Hz as [Hz|Hz]; rewrite Hz; ring.
  - intros _ _ Hb. apply find_suitable_actuators_in_returns.
    assert (Hpos : 0 < 2 ^ (-1022)) by reflexivity.
    intros Hz. rewrite Hz in Hb. destruct Hb as [Hb|Hb]; lra.
Qed.

Lemma find_suitable_actuators_raise_conditions_witness :
  find_suitable_actuators 0 "Torque (Nm)" butterfly_6in 1.25 None
  = Raise ZeroDivisionError
  /\ exists res, find_suitable_actuators 160 "Torque (Nm)" butterfly_6in 1.25 None = Ok res.
Proof.
  destruct (find_suitable_actuators_raise_conditions 0 "Torque (Nm)" butterfly_6in 1.25
              None) as (_ & Hraise & _).
  destruct (find_suitable_actuators_raise_conditions 160 "Torque (Nm)" butterfly_6in 1.25
              None) as (_ & _ & Hret).
  split.
  - apply Hraise;
      [split; vm_compute; discriminate | split; vm_compute; discriminate
      | left; reflexivity |].
    exists IQT_300. split; [vm_compute; tauto|].
    split; [apply compatible_iff; vm_compute; reflexivity | vm_compute; discriminate].
  - apply Hret; [split; vm_compute; discriminate | split; vm_compute; discriminate |].
    left. vm_compute. discriminate.
Defined.

(** X3: the first returned candidate is the smallest adequate actuator: no
    catalog entry that passes the guards and reaches the threshold has a
    smaller rating. *)
Theorem find_suitable_actuators_first_is_smallest
  (required_value : Q) (value_type : string) (valve : Valve.t)
  (safety_factor : Q) (supply_type : option string)
  (res : list Candidate) (c : Candidate) (a : Actuator.t) :
  find_suitable_actuators required_value value_type valve safety_factor supply_type
  = Ok res ->
  hd_error res = Some c ->
  In a ACTUATOR_DATABASE ->
  Compatible value_type valve supply_type a ->
  required_value * safety_factor <= rated value_type a ->
  capability c <= rated value_type a.
Proof.
  intros H Hhd Hin Hc Hge.
  destruct (find_suitable_actuators_in_adequate _ _ _ _ _ _ _ _ H Hin Hc Hge)
    as [c' (Hin' & _ & Hcap)].
  rewrite <- Hcap.
  apply find_suitable_actuators_in_Ok in H. destruct H as [new [_ ->]].
  pose proof (list_sort_sorted capability new) as Hs.
  destruct (list_sort capability new) as [|c0 rest]; [discriminate|].
  injection Hhd as ->. inversion Hs as [|? ? _ Hall]; subst.
  destruct Hin' as [<-|Hin']; [lra|].
  exact (proj1 (Forall_forall _ _) Hall c' Hin').
Qed.

Lemma find_suitable_actuators_first_is_smallest_witness :
  capability SR_100_candidate <= rated "Torque (Nm)" IQT_300.
Proof.
  apply (find_suitable_actuators_first_is_smallest 160 "Torque (Nm)" butterfly_6in_100C
           1.25 None candidates_100C SR_100_candidate IQT_300).
  - vm_compute. reflexivity.
  - reflexivity.
  - vm_compute. tauto.
  - apply compatible_iff. vm_compute. reflexivity.
  - vm_compute. discriminate.
Defined.

(** X4: raising the threshold never adds an actuator: what is returned
    for the larger threshold is returned, with the same capability, for the
    smaller one. *)
Theorem find_suitable_actuators_threshold_antitone
  (r1 r2 : Q) (value_type : string) (valve : Valve.t)
  (s1 s2 : Q) (supply_type : option string)
  (res1 res2 : list Candidate) (c2 : Candidate) :
  find_suitable_actuators r1 value_type valve s1 supply_type = Ok res1 ->
  find_suitable_actuators r2 value_type valve s2 supply_type = Ok res2 ->
  r1 * s1 <= r2 * s2 ->
  In c2 res2 ->
  exists c1, In c1 res1 /\ actuator c1 = actuator c2 /\ capability c1 = capability c2.
Proof.
  intros H1 H2 Hle Hin.
  apply (find_suitable_actuators_in_member _ _ _ _ _ _ _ c2 H2) in Hin.
  destruct Hin as (Hin & Hc & Hge & Heq).
  assert (Hge1 : r1 * s1 <= rated value_type (actuator c2)) by lra.
  destruct (find_suitable_actuators_in_adequate _ _ _ _ _ _ _ _ H1 Hin Hc Hge1)
    as [c1 (Hin1 & Hact & Hcap)].
  exists c1. repeat split; try assumption.
  rewrite Hcap, Heq. reflexivity.
Qed.

Lemma find_suitable_actuators_threshold_antitone_witness :
  exists c1, In c1 candidates_100C
             /\ actuator c1 = actuator IQT_300_candidate_2000
             /\ capability c1 = capability IQT_300_candidate_2000.
Proof.
  apply (find_suitable_actuators_threshold_antitone 160 2000 "Torque (Nm)"
           butterfly_6in_100C 1.25 1.25 None candidates_100C candidates_100C_2000
           IQT_300_candidate_2000).
  - vm_compute. reflexivity.
  - vm_compute. reflexivity.
  - vm_compute. discriminate.
  - left. reflexivity.
Defined.

Lemma ACTUATOR_DATABASE_NoDup : NoDup ACTUATOR_DATABASE.
Proof.
  unfold ACTUATOR_DATABASE.
  repeat (constructor; [simpl; intuition discriminate|]). constructor.
Qed.

(** X5: no actuator is returned twice, and at most as many candidates are
    returned as the catalog has entries. *)
Theorem find_suitable_actuators_distinct
  (required_value : Q) (value_type : string) (valve : Valve.t)
  (safety_factor : Q) (supply_type : option string) (res : list Candidate) :
  find_suitable_actuators required_value value_type valve safety_factor supply_type
  = Ok res ->
  NoDup (map actuator res) /\ (List.length res <= List.length ACTUATOR_DATABASE)%nat.
Proof.
  intros H. apply find_suitable_actuators_in_Ok in H. destruct H as [new [Hnew ->]].
  pose proof (for_each_actuators _ _ _ _ _ _ _ Hnew) as Hmap.
  pose proof (list_sort_perm capability new) as Hperm.
  split.
  - apply (Permutation_NoDup (Permutation_sym (Permutation_map actuator Hperm))).
    rewrite Hmap. apply NoDup_filter, ACTUATOR_DATABASE_NoDup.
  - rewrite (Permutation_length Hperm), <- (length_map actuator new), Hmap.
    apply filter_length_le.
Qed.

Lemma find_suitable_actuators_distinct_witness :
  NoDup (map actuator candidates_100C)
  /\ (List.length candidates_100C <= List.length ACTUATOR_DATABASE)%nat.
Proof.
  apply (find_suitable_actuators_distinct 160 "Torque (Nm)" butterfly_6in_100C 1.25 None).
  vm_compute. reflexivity.
Defined.

(** ** Selection on the valve catalog *)

Lemma compatible_motion_envelope (value_type : string) (valve : Valve.t)
  (supply_type : option string) (a : Actuator.t) :
  motion_ok value_type a && envelope_ok valve a = false ->
  compatible value_type valve supply_type a = false.
Proof.
  unfold motion_ok, envelope_ok, compatible. intros H.
  apply andb_false_iff in H. destruct H as [H|H].
  - rewrite H. reflexivity.
  - rewrite <- !andb_assoc, H, !andb_false_r. reflexivity.
Qed.

Lemma for_each_nothing (required_value : Q) (value_type : string) (valve : Valve.t)
  (safety_factor : Q) (supply_type : option string)
  (catalog : list Actuator.t) (acc : list Candidate) :
  forallb (fun a => negb (motion_ok value_type a && envelope_ok valve a)) catalog = true ->
  for_each required_value value_type valve safety_factor supply_type catalog acc = Ok acc.
Proof.
  induction catalog as [|a rest IH]; simpl; [reflexivity|].
  intros H. apply andb_true_iff in H. destruct H as [Ha Hrest].
  apply negb_true_iff in Ha.
  rewrite loop_body_spec, (compatible_motion_envelope _ _ _ _ Ha). simpl. auto.
Qed.

(** X6: of the eight catalog valves only the 6 inch butterfly and the
    10 inch diaphragm valve can be given an actuator: for each of the
    other six, computing the requirement and selecting returns the empty
    list, whatever the pressure, the temperature, the safety factor and
    the supply filter. *)
Theorem select_for_conditions_catalog_valves_without_actuator
  (pow : Q -> Q -> Q) (valve : Valve.t) (pressure temperature sf_value : Q)
  (supply_type : option string) :
  In valve VALVE_DATABASE ->
  valve <> butterfly_6in ->
  valve <> diaphragm_10in ->
  select_for_conditions pow valve pressure temperature sf_value supply_type = Ok [].
Proof.
  intros Hin Hb Hd. unfold select_for_conditions.
  destruct (calculate_valve_torque_thrust pow valve pressure temperature)
    as [required_value value_type] eqn:E.
  assert (Hvt : value_type
                = snd (calculate_valve_torque_thrust pow valve pressure temperature))
    by (rewrite E; reflexivity).
  clear E. unfold find_suitable_actuators, find_suitable_actuators_in.
  simpl in Hin.
  destruct Hin as [<-|[<-|[<-|[<-|[<-|[<-|[<-|[<-|[]]]]]]]]];
    try (exfalso; apply Hb; reflexivity);
    try (exfalso; apply Hd; reflexivity);
    vm_compute in Hvt; subst value_type;
    (rewrite for_each_nothing; reflexivity).
Qed.

Lemma select_for_conditions_catalog_valves_without_actuator_witness :
  select_for_conditions (fun x _ => x) gate_6in 10 20 1.25 (Some "Hydraulic"%string)
  = Ok [].
Proof.
  apply (select_for_conditions_catalog_valves_without_actuator (fun x _ => x) gate_6in).
  - vm_compute. tauto.
  - discriminate.
  - discriminate.
Defined.

(** ** The calculator: units *)

Lemma calculate_valve_torque_thrust_snd (pow : Q -> Q -> Q) (valve : Valve.t) (p t : Q) :
  snd (calculate_valve_torque_thrust pow valve p t) = unit_of_type (Valve.type valve).
Proof.
  unfold calculate_valve_torque_thrust, unit_of_type.
  destruct (String.eqb (Valve.type valve) "Ball"),
           (String.eqb (Valve.type valve) "Plug"),
           (String.eqb (Valve.type valve) "Butterfly"),
           (String.eqb (Valve.type valve) "Globe"),
           (String.eqb (Valve.type valve) "Gate"),
           (String.eqb (Valve.type valve) "Diaphragm"); reflexivity.
Qed.

(** X7: the unit label depends on the valve type only, not on pressure or
    temperature, and agrees with the table [VALVE_TYPES]: it is
    "Torque (Nm)" exactly for the types the table calls Rotary,
    "Thrust (N)" exactly for those it calls Linear, and a type the table
    does not list gives [(0, "Unknown")]. *)
Theorem calculate_valve_torque_thrust_unit
  (pow : Q -> Q -> Q) (valve : Valve.t) (pressure_bar temperature_c : Q) :
  (forall p t : Q,
      snd (calculate_valve_torque_thrust pow valve p t)
      = snd (calculate_valve_torque_thrust pow valve pressure_bar temperature_c))
  /\ match dict_lookup VALVE_TYPES (Valve.type valve) with
     | Some d =>
         (dict_lookup d "torque_type" = Some "Rotary"%string
          <-> snd (calculate_valve_torque_thrust pow valve pressure_bar temperature_c)
              = "Torque (Nm)"%string)
         /\ (dict_lookup d "thrust_type" = Some "Linear"%string
             <-> snd (calculate_valve_torque_thrust pow valve pressure_bar temperature_c)
                 = "Thrust (N)"%string)
         /\ (dict_lookup d "torque_type" = Some "Rotary"%string
             \/ dict_lookup d "thrust_type" = Some "Linear"%string)
     | None =>
         calculate_valve_torque_thrust pow valve pressure_bar temperature_c
         = (0, "Unknown"%string)
     end.
Proof.
  split.
  - intros p t. rewrite !calculate_valve_torque_thrust_snd. reflexivity.
  - rewrite calculate_valve_torque_thrust_snd.
    destruct (String.eqb_spec (Valve.type valve) "Ball") as [e|n1];
      [rewrite e; repeat split; intros; try reflexivity; try discriminate; auto|].
    destruct (String.eqb_spec (Valve.type valve) "Butterfly") as [e|n2];
      [rewrite e; repeat split; intros; try reflexivity; try discriminate; auto|].
    destruct (String.eqb_spec (Valve.type valve) "Globe") as [e|n3];
      [rewrite e; repeat split; intros; try reflexivity; try discriminate; auto|].
    destruct (String.eqb_spec (Valve.type valve) "Gate") as [e|n4];
      [rewrite e; repeat split; intros; try reflexivity; try discriminate; auto|].
    destruct (String.eqb_spec (Valve.type valve) "Plug") as [e|n5];
      [rewrite e; repeat split; intros; try reflexivity; try discriminate; auto|].
    destruct (String.eqb_spec (Valve.type valve) "Diaphragm") as [e|n6];
      [rewrite e; repeat split; intros; try reflexivity; try discriminate; auto|].
    unfold calculate_valve_torque_thrust.
    apply String.eqb_neq in n1, n2, n3, n4, n5, n6.
    unfold VALVE_TYPES. cbn [dict_lookup].
    rewrite !(String.eqb_sym _ (Valve.type valve)).
    rewrite n1, n2, n3, n4, n5, n6. reflexivity.
Qed.

Lemma calculate_valve_torque_thrust_unit_witness :
  snd (calculate_valve_torque_thrust (fun x _ => x) gate_6in 0 500)
  = snd (calculate_valve_torque_thrust (fun x _ => x) gate_6in 50 300).
Proof.
  apply (proj1 (calculate_valve_torque_thrust_unit (fun x _ => x) gate_6in 50 300)).
Defined.

(** ** The calculator: pressure *)

Lemma square_nonneg (x : Q) : 0 <= x ^ 2.
Proof. change (x ^ 2) with (x * x). nra. Qed.

Lemma math_pi_pos : 0 < math_pi.
Proof. reflexivity. Qed.

Lemma get_area_nonneg (valve : Valve.t) : 0 <= Valve.get_area valve.
Proof.
  unfold Valve.get_area. cbv zeta.
  apply Qmult_le_0_compat; [apply Qlt_le_weak, math_pi_pos | apply square_nonneg].
Qed.

Lemma stem_area_nonneg (valve : Valve.t) :
  0 <= math_pi * (Valve.stem_dia_mm valve / 1000 / 2) ^ 2.
Proof.
  apply Qmult_le_0_compat; [apply Qlt_le_weak, math_pi_pos | apply square_nonneg].
Qed.

Lemma get_seal_friction_cases (valve : Valve.t) :
  Valve.get_seal_friction valve = 0.05 \/ Valve.get_seal_friction valve = 0.1
  \/ Valve.get_seal_friction valve = 0.15 \/ Valve.get_seal_friction valve = 0.08.
Proof.
  unfold Valve.get_seal_friction, SEAL_FRICTION. cbn [dict_get].
  destruct (String.eqb "PTFE" _); [tauto|].
  destruct (String.eqb "Graphite" _); [tauto|].
  destruct (String.eqb "Metal" _); [tauto|].
  destruct (String.eqb "Elastomer" _); tauto.
Qed.

(** X11: the seal friction coefficient of every valve lies between 0.05
    and 0.15, and a seat material that is not a key of [SEAL_FRICTION]
    gets the default 0.1 instead of an error. *)
Theorem get_seal_friction_range (valve : Valve.t) :
  (0.05 <= Valve.get_seal_friction valve /\ Valve.get_seal_friction valve <= 0.15)
  /\ (dict_lookup SEAL_FRICTION (Valve.seat_material valve) = None ->
      Valve.get_seal_friction valve = 0.1).
Proof.
  split.
  - destruct (get_seal_friction_cases valve) as [-> | [-> | [-> | ->]]];
      split; discriminate.
  - unfold Valve.get_seal_friction, SEAL_FRICTION. cbn [dict_get dict_lookup].
    destruct (String.eqb "PTFE" _); [discriminate|].
    destruct (String.eqb "Graphite" _); [discriminate|].
    destruct (String.eqb "Metal" _); [discriminate|].
    destruct (String.eqb "Elastomer" _); [discriminate|]. reflexivity.
Qed.

Lemma get_seal_friction_range_witness :
  Valve.get_seal_friction (Valve.mk 2 "Ball" 600 "Ceramic" 20 100 0 200 (-20)) = 0.1.
Proof.
  apply (proj2 (get_seal_friction_range (Valve.mk 2 "Ball" 600 "Ceramic" 20 100 0 200 (-20)))).
  reflexivity.
Defined.

(** X8: at pressure 0 every valve that is not a Globe valve has the
    requirement 0, at every temperature; a Globe valve keeps its seat load
    [size * 1000], scaled by its temperature factor. *)
Theorem calculate_valve_torque_thrust_at_zero_pressure
  (pow : Q -> Q -> Q) (valve : Valve.t) (temperature_c : Q) :
  (Valve.type valve <> "Globe"%string ->
   fst (calculate_valve_torque_thrust pow valve 0 temperature_c) == 0)
  /\ (Valve.type valve = "Globe"%string ->
      fst (calculate_valve_torque_thrust pow valve 0 temperature_c)
      == Valve.size valve * 1000 * (1 + Qmax 0 (temperature_c - 150) * 0.002)).
Proof.
  split.
  - intros Hty. apply String.eqb_neq in Hty.
    unfold calculate_valve_torque_thrust. rewrite Hty.
    destruct (String.eqb (Valve.type valve) "Ball"
              || String.eqb (Valve.type valve) "Plug").
    { unfold calculate_ball_valve_torque. simpl fst. ring. }
    destruct (String.eqb (Valve.type valve) "Butterfly").
    { unfold calculate_butterfly_valve_torque. simpl fst. ring. }
    destruct (String.eqb (Valve.type valve) "Gate").
    { unfold calculate_gate_valve_thrust. simpl fst. ring. }
    destruct (String.eqb (Valve.type valve) "Diaphragm"); simpl fst; ring.
  - intros Hty. unfold calculate_valve_torque_thrust. rewrite Hty. simpl.
    unfold calculate_globe_valve_thrust. cbv zeta.
    rewrite temp_factor_max. ring.
Qed.

Lemma calculate_valve_torque_thrust_at_zero_pressure_witness :
  fst (calculate_valve_torque_thrust (fun x _ => x) gate_6in 0 300) == 0
  /\ fst (calculate_valve_torque_thrust (fun x _ => x) globe_3in 0 200)
     == Valve.size globe_3in * 1000 * (1 + Qmax 0 (200 - 150) * 0.002).
Proof.
  split.
  - apply (proj1 (calculate_valve_torque_thrust_at_zero_pressure (fun x _ => x)
                    gate_6in 300)).
    discriminate.
  - apply (proj2 (calculate_valve_torque_thrust_at_zero_pressure (fun x _ => x)
                    globe_3in 200)).
    reflexivity.
Defined.

Lemma linear_in_pressure_mono (c z p1 p2 l r : Q) :
  0 <= c -> p1 <= p2 -> l == c * p1 + z -> r == c * p2 + z -> l <= r.
Proof.
  intros Hc Hp -> ->. nra.
Qed.

(** X9: for Globe, Gate and Diaphragm valves the thrust does not decrease
    when the pressure grows, whatever the size, the stem diameter and the
    temperature (the areas are squares and the friction coefficient is
    positive). *)
Theorem calculate_valve_torque_thrust_thrust_monotone
  (pow : Q -> Q -> Q) (valve : Valve.t) (p1 p2 temperature_c : Q) :
  Valve.type valve = "Globe"%string \/ Valve.type valve = "Gate"%string
  \/ Valve.type valve = "Diaphragm"%string ->
  p1 <= p2 ->
  fst (calculate_valve_torque_thrust pow valve p1 temperature_c)
  <= fst (calculate_valve_torque_thrust pow valve p2 temperature_c).
Proof.
  intros Hty Hp.
  pose proof (get_area_nonneg valve) as Ha.
  pose proof (stem_area_nonneg valve) as Hs.
  assert (Hf : 0 <= Valve.get_seal_friction valve)
    by (destruct (get_seal_friction_cases valve) as [-> | [-> | [-> | ->]]]; discriminate).
  unfold calculate_valve_torque_thrust.
  destruct Hty as [E | [E | E]]; rewrite E; simpl.
  - unfold calculate_globe_valve_thrust. cbv zeta.
    pose proof (temp_factor_ge_1 temperature_c 150 0.002 ltac:(lra)) as Htf.
    apply Qmult_le_compat_r; [|lra].
    revert Ha Hs Hf.
    generalize (Valve.get_area valve), (Valve.get_seal_friction valve),
      (math_pi * (Valve.stem_dia_mm valve / 1000 / 2) ^ 2).
    intros A f S Ha Hs Hf.
    assert (Hsf : 0 <= S * f) by (apply Qmult_le_0_compat; assumption).
    apply (linear_in_pressure_mono (A * 100000 + S * f * 100000)
             (Valve.size valve * 1000) p1 p2); [lra | exact Hp | ring | ring].
  - unfold calculate_gate_valve_thrust. rewrite E. cbv zeta.
    change (if String.eqb "Gate" "Gate" then 1.5 else 1.0) with 1.5.
    pose proof (temp_factor_ge_1 temperature_c 200 0.0015 ltac:(lra)) as Htf.
    apply Qmult_le_compat_r; [|lra].
    revert Ha Hs Hf.
    generalize (Valve.get_area valve), (Valve.get_seal_friction valve),
      (math_pi * (Valve.stem_dia_mm valve / 1000 / 2) ^ 2).
    intros A f S Ha Hs Hf.
    assert (Hsf : 0 <= S * f) by (apply Qmult_le_0_compat; assumption).
    apply (linear_in_pressure_mono (A * 100000 * 1.5 + S * f * 100000) 0 p1 p2);
      [lra | exact Hp | ring | ring].
  - revert Ha. generalize (Valve.get_area valve). intros A Ha.
    apply (linear_in_pressure_mono (A * 100000 * 1.2) 0 p1 p2);
      [lra | exact Hp | ring | ring].
Qed.

Lemma calculate_valve_torque_thrust_thrust_monotone_witness :
  fst (calculate_valve_torque_thrust (fun x _ => x) gate_6in 10 300)
  <= fst (calculate_valve_torque_thrust (fun x _ => x) gate_6in 50 300).
Proof.
  apply (calculate_valve_torque_thrust_thrust_monotone (fun x _ => x) gate_6in 10 50 300).
  - right. left. reflexivity.
  - vm_compute. discriminate.
Defined.

(** ** The calculator: temperature *)

(** X10: every valve type has a temperature up to which the temperature
    does not enter the result (100 for Ball and Plug, 80 for Butterfly, 150
    for Globe, 200 for Gate); Diaphragm valves and unknown types are
    calculated without any temperature adjustment. *)
Theorem calculate_valve_torque_thrust_temperature_threshold
  (pow : Q -> Q -> Q) (valve : Valve.t) (pressure_bar t1 t2 : Q) :
  match temp_threshold (Valve.type valve) with
  | Some T =>
      t1 <= T -> t2 <= T ->
      calculate_valve_torque_thrust pow valve pressure_bar t1
      = calculate_valve_torque_thrust pow valve pressure_bar t2
  | None =>
      calculate_valve_torque_thrust pow valve pressure_bar t1
      = calculate_valve_torque_thrust pow valve pressure_bar t2
  end.
Proof.
  unfold temp_threshold, calculate_valve_torque_thrust.
  destruct (String.eqb (Valve.type valve) "Ball" || String.eqb (Valve.type valve) "Plug").
  { intros H1 H2. apply py_gt_false in H1, H2.
    unfold calculate_ball_valve_torque. rewrite H1, H2. reflexivity. }
  destruct (String.eqb (Valve.type valve) "Butterfly").
  { intros H1 H2. apply py_gt_false in H1, H2.
    unfold calculate_butterfly_valve_torque. rewrite H1, H2. reflexivity. }
  destruct (String.eqb (Valve.type valve) "Globe").
  { intros H1 H2. apply py_gt_false in H1, H2.
    unfold calculate_globe_valve_thrust. rewrite H1, H2. reflexivity. }
  destruct (String.eqb (Valve.type valve) "Gate").
  { intros H1 H2. apply py_gt_false in H1, H2.
    unfold calculate_gate_valve_thrust. rewrite H1, H2. reflexivity. }
  destruct (String.eqb (Valve.type valve) "Diaphragm"); reflexivity.
Qed.

Lemma calculate_valve_torque_thrust_temperature_threshold_witness :
  calculate_valve_torque_thrust (fun x _ => x) gate_6in 50 (-30)
  = calculate_valve_torque_thrust (fun x _ => x) gate_6in 50 200.
Proof.
  apply (calculate_valve_torque_thrust_temperature_threshold (fun x _ => x) gate_6in
           50 (-30) 200); vm_compute; discriminate.
Defined.

(** ** The margin label of the caller *)

(** X12: within one result with a positive threshold the margin and the
    status follow the capability: of two returned candidates the one with
    the larger capability has at least the margin of the other, is
    "Over-sized" if the other is, and the other is "Minimal margin" if it
    is. *)
Theorem margin_status_monotone
  (required_value : Q) (value_type : string) (valve : Valve.t)
  (safety_factor : Q) (supply_type : option string)
  (res : list Candidate) (c1 c2 : Candidate) :
  find_suitable_actuators required_value value_type valve safety_factor supply_type
  = Ok res ->
  In c1 res ->
  In c2 res ->
  0 < required_value * safety_factor ->
  capability c1 <= capability c2 ->
  margin c1 <= margin c2
  /\ (fst (margin_status (margin c1)) = "Over-sized"%string ->
      fst (margin_status (margin c2)) = "Over-sized"%string)
  /\ (fst (margin_status (margin c2)) = "Minimal margin"%string ->
      fst (margin_status (margin c1)) = "Minimal margin"%string).
Proof.
  intros H Hin1 Hin2 Hpos Hcap.
  apply (find_suitable_actuators_in_member _ _ _ _ _ _ _ c1 H) in Hin1.
  apply (find_suitable_actuators_in_member _ _ _ _ _ _ _ c2 H) in Hin2.
  destruct Hin1 as (_ & _ & _ & E1). destruct Hin2 as (_ & _ & _ & E2).
  rewrite E1, E2 in Hcap. simpl capability in Hcap. rewrite E1, E2. simpl margin.
  revert Hcap.
  generalize (rated value_type (actuator c1)), (rated value_type (actuator c2)).
  intros cap1 cap2 Hcap.
  assert (Hq : cap1 / (required_value * safety_factor)
               <= cap2 / (required_value * safety_factor)).
  { unfold Qdiv. apply Qmult_le_compat_r; [exact Hcap|].
    apply Qlt_le_weak, Qinv_lt_0_compat, Hpos. }
  revert Hq.
  generalize (cap1 / (required_value * safety_factor)),
    (cap2 / (required_value * safety_factor)).
  intros q1 q2 Hq.
  assert (Hm : (q1 - 1) * 100 <= (q2 - 1) * 100) by lra.
  split; [exact Hm|].
  unfold margin_status.
  destruct (py_gt ((q1 - 1) * 100) 50) eqn:A1, (py_gt ((q2 - 1) * 100) 50) eqn:A2,
           (py_gt ((q1 - 1) * 100) 20) eqn:B1, (py_gt ((q2 - 1) * 100) 20) eqn:B2;
    simpl; split; intros; try reflexivity; try discriminate;
    rewrite ?py_gt_true, ?py_gt_false in *; lra.
Qed.

Lemma margin_status_monotone_witness :
  margin SR_100_candidate <= margin IQT_300_candidate
  /\ (fst (margin_status (margin SR_100_candidate)) = "Over-sized"%string ->
      fst (margin_status (margin IQT_300_candidate)) = "Over-sized"%string)
  /\ (fst (margin_status (margin IQT_300_candidate)) = "Minimal margin"%string ->
      fst (margin_status (margin SR_100_candidate)) = "Minimal margin"%string).
Proof.
  apply (margin_status_monotone 160 "Torque (Nm)" butterfly_6in_100C 1.25 None
           candidates_100C SR_100_candidate IQT_300_candidate).
  - vm_compute. reflexivity.
  - left. reflexivity.
  - vm_compute. tauto.
  - reflexivity.
  - vm_compute. discriminate.
Defined.

(** ** Calculation followed by selection *)

Lemma calculate_valve_torque_thrust_zero_pressure
  (pow : Q -> Q -> Q) (valve : Valve.t) (temperature_c : Q) :
  Valve.type valve <> "Globe"%string ->
  fst (calculate_valve_torque_thrust pow valve 0 temperature_c) == 0.
Proof.
  intros Hty. apply String.eqb_neq in Hty.
  unfold calculate_valve_torque_thrust. rewrite Hty.
  destruct (String.eqb (Valve.type valve) "Ball" || String.eqb (Valve.type valve) "Plug").
  { unfold calculate_ball_valve_torque. simpl fst. ring. }
  destruct (String.eqb (Valve.type valve) "Butterfly").
  { unfold calculate_butterfly_valve_torque. simpl fst. ring. }
  destruct (String.eqb (Valve.type valve) "Gate").
  { unfold calculate_gate_valve_thrust. simpl fst. ring. }
  destruct (String.eqb (Valve.type valve) "Diaphragm"); simpl fst; ring.
Qed.

Lemma select_for_conditions_eq (pow : Q -> Q -> Q) (valve : Valve.t)
  (pressure temperature sf_value : Q) (supply_type : option string) :
  select_for_conditions pow valve pressure temperature sf_value supply_type
  = find_suitable_actuators
      (fst (calculate_valve_torque_thrust pow valve pressure temperature))
      (unit_of_type (Valve.type valve)) valve sf_value supply_type.
Proof.
  unfold select_for_conditions.
  rewrite <- (calculate_valve_torque_thrust_snd pow valve pressure temperature).
  destruct (calculate_valve_torque_thrust pow valve pressure temperature). reflexivity.
Qed.

(** X13: at operating pressure 0 a valve that is not a Globe valve has the
    requirement 0, and calculation followed by selection then either
    returns the empty list or ends in [ZeroDivisionError]; it ends in the
    exception exactly when some catalog actuator with a non-negative
    rating passes the four guards. *)
Theorem select_for_conditions_zero_pressure
  (pow : Q -> Q -> Q) (valve : Valve.t) (temperature sf_value : Q)
  (supply_type : option string) :
  Valve.type valve <> "Globe"%string ->
  (select_for_conditions pow valve 0 temperature sf_value supply_type
   = Raise ZeroDivisionError
   <-> exists a, In a ACTUATOR_DATABASE
                 /\ Compatible (unit_of_type (Valve.type valve)) valve supply_type a
                 /\ 0 <= rated (unit_of_type (Valve.type valve)) a)
  /\ (select_for_conditions pow valve 0 temperature sf_value supply_type
      = Raise ZeroDivisionError
      \/ select_for_conditions pow valve 0 temperature sf_value supply_type = Ok []).
Proof.
  intros Hty. rewrite select_for_conditions_eq.
  pose proof (calculate_valve_torque_thrust_zero_pressure pow valve temperature Hty) as Hz.
  assert (Hthr : fst (calculate_valve_torque_thrust pow valve 0 temperature) * sf_value == 0)
    by (rewrite Hz; ring).
  split.
  - unfold find_suitable_actuators. rewrite find_suitable_actuators_in_Raise_iff. tauto.
  - destruct (find_suitable_actuators _ _ valve sf_value supply_type) as [res|[]] eqn:E.
    + right. f_equal.
      apply (find_suitable_actuators_zero_returns_nothing _ _ _ _ _ res Hthr E).
    + left. reflexivity.
Qed.

Lemma select_for_conditions_zero_pressure_witness :
  select_for_conditions (fun x _ => x) butterfly_6in 0 20 1.25 None
  = Raise ZeroDivisionError
  <-> exists a, In a ACTUATOR_DATABASE
                /\ Compatible (unit_of_type (Valve.type butterfly_6in)) butterfly_6in None a
                /\ 0 <= rated (unit_of_type (Valve.type butterfly_6in)) a.
Proof.
  apply (proj1 (select_for_conditions_zero_pressure (fun x _ => x) butterfly_6in 20 1.25
                  None ltac:(discriminate))).
Defined.

Example select_for_conditions_butterfly_zero_pressure :
  select_for_conditions (fun x _ => x) butterfly_6in 0 20 1.25 None
  = Raise ZeroDivisionError.
Proof. vm_compute. reflexivity. Qed.

(** The seat load is a floor of the Globe requirement. *)
Lemma calculate_globe_seat_load_floor
  (pow : Q -> Q -> Q) (valve : Valve.t) (pressure temperature : Q) :
  Valve.type valve = "Globe"%string ->
  0 <= Valve.size valve ->
  0 <= pressure ->
  Valve.size valve * 1000
  <= fst (calculate_valve_torque_thrust pow valve pressure temperature).
Proof.
  intros Hty Hsize Hp.
  unfold calculate_valve_torque_thrust. rewrite Hty. simpl.
  unfold calculate_globe_valve_thrust. cbv zeta.
  pose proof (temp_factor_ge_1 temperature 150 0.002 ltac:(lra)) as Htf.
  pose proof (get_area_nonneg valve) as Ha.
  pose proof (stem_area_nonneg valve) as Hs.
  assert (Hf : 0 <= Valve.get_seal_friction valve)
    by (destruct (get_seal_friction_cases valve) as [-> | [-> | [-> | ->]]];
        discriminate).
  revert Htf Ha Hs Hf.
  generalize (if py_gt temperature 150 then 1.0 + (temperature - 150) * 0.002 else 1.0),
    (Valve.get_area valve), (Valve.get_seal_friction valve),
    (math_pi * (Valve.stem_dia_mm valve / 1000 / 2) ^ 2).
  intros tf A f S Htf Ha Hs Hf.
  assert (Hdp : 0 <= A * pressure * 100000)
    by (apply Qmult_le_0_compat; [apply Qmult_le_0_compat; assumption | lra]).
  assert (Hpk : 0 <= S * pressure * 100000 * f).
  { apply Qmult_le_0_compat; [|assumption].
    apply Qmult_le_0_compat; [apply Qmult_le_0_compat; assumption | lra]. }
  revert Hdp Hpk. generalize (A * pressure * 100000), (S * pressure * 100000 * f).
  intros dp pk Hdp Hpk. nra.
Qed.

(** X14: a Globe valve of positive size at a non-negative pressure has a
    positive requirement, because of its seat load, so with a safety
    factor of at least 1 calculation followed by selection always returns
    a list, also at pressure 0 (all numbers of moderate size). *)
Theorem select_for_conditions_globe_returns
  (pow : Q -> Q -> Q) (valve : Valve.t) (pressure temperature sf_value : Q)
  (supply_type : option string) :
  Valve.type valve = "Globe"%string ->
  0 < Valve.size valve ->
  0 <= pressure ->
  1 <= sf_value ->
  moderate (Valve.size valve) /\ moderate (Valve.stem_dia_mm valve)
  /\ moderate pressure /\ moderate temperature /\ moderate sf_value ->
  0 < fst (calculate_valve_torque_thrust pow valve pressure temperature)
  /\ exists res,
      select_for_conditions pow valve pressure temperature sf_value supply_type = Ok res.
Proof.
  intros Hty Hsize Hp Hsf _.
  pose proof (calculate_globe_seat_load_floor pow valve pressure temperature Hty
                (Qlt_le_weak _ _ Hsize) Hp) as Hfloor.
  assert (Hreq : 0 < fst (calculate_valve_torque_thrust pow valve pressure temperature))
    by lra.
  split; [exact Hreq|].
  rewrite select_for_conditions_eq. apply find_suitable_actuators_in_returns.
  intros Hz. apply Qmult_integral in Hz. destruct Hz as [Hz|Hz]; [|lra].
  rewrite Hz in Hreq. lra.
Qed.

Lemma select_for_conditions_globe_returns_witness :
  0 < fst (calculate_valve_torque_thrust (fun x _ => x) globe_3in 0 20)
  /\ exists res,
      select_for_conditions (fun x _ => x) globe_3in 0 20 1.25 None = Ok res.
Proof.
  apply (select_for_conditions_globe_returns (fun x _ => x) globe_3in 0 20 1.25 None).
  - reflexivity.
  - reflexivity.
  - vm_compute. discriminate.
  - vm_compute. discriminate.
  - repeat split; vm_compute; discriminate.
Defined.

Lemma get_area_pos (valve : Valve.t) : 0 < Valve.size valve -> 0 < Valve.get_area valve.
Proof.
  intros Hsize. unfold Valve.get_area. cbv zeta.
  change ((Valve.size valve * 0.0254 / 2) ^ 2)
    with ((Valve.size valve * 0.0254 / 2) * (Valve.size valve * 0.0254 / 2)).
  assert (Hr : 0 < Valve.size valve * 0.0254 / 2).
  { apply Qlt_shift_div_l; [reflexivity|]. lra. }
  pose proof math_pi_pos as Hpi.
  revert Hr. generalize (Valve.size valve * 0.0254 / 2). intros r Hr.
  apply Qmult_lt_0_compat; [exact Hpi|]. apply Qmult_lt_0_compat; exact Hr.
Qed.

(** With exact products a positive size and a positive pressure give a
    positive requirement. *)
Lemma calculate_valve_torque_thrust_positive
  (pow : Q -> Q -> Q) (valve : Valve.t) (pressure temperature : Q) :
  unit_of_type (Valve.type valve) <> "Unknown"%string ->
  (Valve.type valve = "Butterfly"%string -> 0 < pow (Valve.size valve) 1.5) ->
  0 < Valve.size valve ->
  0 < pressure ->
  0 < fst (calculate_valve_torque_thrust pow valve pressure temperature).
Proof.
  intros Hknown Hpow Hsize Hp.
  pose proof (get_area_pos valve Hsize) as Ha.
  pose proof (stem_area_nonneg valve) as Hs.
  assert (Hf : 0 <= Valve.get_seal_friction valve)
    by (destruct (get_seal_friction_cases valve) as [-> | [-> | [-> | ->]]];
        discriminate).
  revert Hknown Hpow. unfold calculate_valve_torque_thrust, unit_of_type.
  destruct (String.eqb (Valve.type valve) "Ball" || String.eqb (Valve.type valve) "Plug");
    simpl orb.
  { intros _ _. simpl fst. rewrite calculate_ball_valve_torque_eq.
    pose proof (temp_factor_ge_1 temperature 100 0.005 ltac:(lra)) as Htf.
    pose proof (seat_factor_pos valve) as Hseat.
    repeat apply Qmult_lt_0_compat; try assumption; lra. }
  destruct (String.eqb_spec (Valve.type valve) "Butterfly") as [Eb|_].
  { intros _ Hpow. specialize (Hpow Eb). simpl fst.
    unfold calculate_butterfly_valve_torque. cbv zeta.
    pose proof (temp_factor_ge_1 temperature 80 0.007 ltac:(lra)) as Htf.
    repeat apply Qmult_lt_0_compat; try assumption; try lra.
    destruct (String.eqb _ "Elastomer"); [reflexivity|].
    destruct (String.eqb _ "PTFE"); reflexivity. }
  destruct (String.eqb (Valve.type valve) "Globe").
  { intros _ _. simpl fst. unfold calculate_globe_valve_thrust. cbv zeta.
    pose proof (temp_factor_ge_1 temperature 150 0.002 ltac:(lra)) as Htf.
    apply Qmult_lt_0_compat; [|lra].
    assert (0 < Valve.get_area valve * pressure * 100000)
      by (repeat apply Qmult_lt_0_compat; try assumption; reflexivity).
    assert (0 <= math_pi * (Valve.stem_dia_mm valve / 1000 / 2) ^ 2 * pressure * 100000
                 * Valve.get_seal_friction valve).
    { apply Qmult_le_0_compat; [|assumption].
      apply Qmult_le_0_compat; [|lra].
      apply Qmult_le_0_compat; [assumption|lra]. }
    lra. }
  destruct (String.eqb_spec (Valve.type valve) "Gate") as [Eg|_].
  { intros _ _. simpl fst. unfold calculate_gate_valve_thrust. rewrite Eg. cbv zeta.
    change (if String.eqb "Gate" "Gate" then 1.5 else 1.0) with 1.5.
    pose proof (temp_factor_ge_1 temperature 200 0.0015 ltac:(lra)) as Htf.
    apply Qmult_lt_0_compat; [|lra].
    assert (0 < Valve.get_area valve * pressure * 100000 * 1.5)
      by (repeat apply Qmult_lt_0_compat; try assumption; reflexivity).
    assert (0 <= math_pi * (Valve.stem_dia_mm valve / 1000 / 2) ^ 2 * pressure * 100000
                 * Valve.get_seal_friction valve).
    { apply Qmult_le_0_compat; [|assumption].
      apply Qmult_le_0_compat; [|lra].
      apply Qmult_le_0_compat; [assumption|lra]. }
    lra. }
  destruct (String.eqb (Valve.type valve) "Diaphragm").
  { intros _ _. simpl fst.
    repeat apply Qmult_lt_0_compat; try assumption; reflexivity. }
  intros Hknown _. exfalso. apply Hknown. reflexivity.
Qed.

(** X15: for a Ball, Plug, Globe, Gate or Diaphragm valve of size at least
    0.01 at a pressure of at least 0.01 the requirement is positive, so
    with a safety factor of at least 1 calculation followed by selection
    always returns a list instead of raising (all numbers of moderate
    size). *)
Theorem select_for_conditions_positive_pressure_returns
  (pow : Q -> Q -> Q) (valve : Valve.t) (pressure temperature sf_value : Q)
  (supply_type : option string) :
  Valve.type valve = "Ball"%string \/ Valve.type valve = "Plug"%string
  \/ Valve.type valve = "Globe"%string \/ Valve.type valve = "Gate"%string
  \/ Valve.type valve = "Diaphragm"%string ->
  0.01 <= Valve.size valve ->
  0.01 <= pressure ->
  1 <= sf_value ->
  moderate (Valve.size valve) /\ moderate (Valve.stem_dia_mm valve)
  /\ moderate pressure /\ moderate temperature /\ moderate sf_value ->
  0 < fst (calculate_valve_torque_thrust pow valve pressure temperature)
  /\ exists res,
      select_for_conditions pow valve pressure temperature sf_value supply_type = Ok res.
Proof.
  intros Hty Hsize Hp Hsf _.
  assert (Hreq : 0 < fst (calculate_valve_torque_thrust pow valve pressure temperature)).
  { apply calculate_valve_torque_thrust_positive; try lra.
    - destruct Hty as [-> | [-> | [-> | [-> | ->]]]]; discriminate.
    - intros E. rewrite E in Hty.
      destruct Hty as [H | [H | [H | [H | H]]]]; discriminate H. }
  split; [exact Hreq|].
  rewrite select_for_conditions_eq. apply find_suitable_actuators_in_returns.
  intros Hz. apply Qmult_integral in Hz. destruct Hz as [Hz|Hz]; [|lra].
  rewrite Hz in Hreq. lra.
Qed.

Lemma select_for_conditions_positive_pressure_returns_witness :
  0 < fst (calculate_valve_torque_thrust (fun x _ => x) diaphragm_10in 10 20)
  /\ exists res,
      select_for_conditions (fun x _ => x) diaphragm_10in 10 20 1.25 None = Ok res.
Proof.
  apply (select_for_conditions_positive_pressure_returns (fun x _ => x) diaphragm_10in
           10 20 1.25 None).
  - right. right. right. right. reflexivity.
  - vm_compute. discriminate.
  - vm_compute. discriminate.
  - vm_compute. discriminate.
  - repeat split; vm_compute; discriminate.
Defined.

(** ** Selection: what is read of the valve *)

Lemma for_each_ext (r1 r2 : Q) (vt1 vt2 : string) (v1 v2 : Valve.t) (s1 s2 : Q)
  (f1 f2 : option string) (catalog : list Actuator.t) (acc : list Candidate) :
  (forall a, loop_body r1 vt1 v1 s1 f1 a = loop_body r2 vt2 v2 s2 f2 a) ->
  for_each r1 vt1 v1 s1 f1 catalog acc = for_each r2 vt2 v2 s2 f2 catalog acc.
Proof.
  intros Hext. revert acc. induction catalog as [|a rest IH]; intros acc; simpl;
    [reflexivity|].
  rewrite Hext. destruct (loop_body r2 vt2 v2 s2 f2 a) as [[c|]|e]; simpl; auto.
Qed.

(** X16: of the valve the selection reads only the rated maximum pressure
    and the rated temperature range: two valves that agree on these three
    get the same result, whatever their type, size, seat material or
    minimum pressure. *)
Theorem find_suitable_actuators_valve_limits_only
  (required_value : Q) (value_type : string) (v1 v2 : Valve.t)
  (safety_factor : Q) (supply_type : option string) :
  Valve.max_pressure v1 = Valve.max_pressure v2 ->
  Valve.min_temp v1 = Valve.min_temp v2 ->
  Valve.max_temp v1 = Valve.max_temp v2 ->
  find_suitable_actuators required_value value_type v1 safety_factor supply_type
  = find_suitable_actuators required_value value_type v2 safety_factor supply_type.
Proof.
  intros Hp Hlo Hhi. unfold find_suitable_actuators, find_suitable_actuators_in.
  rewrite (for_each_ext required_value required_value value_type value_type v1 v2
             safety_factor safety_factor supply_type supply_type); [reflexivity|].
  intros a. unfold loop_body. rewrite Hp, Hlo, Hhi. reflexivity.
Qed.

Lemma find_suitable_actuators_valve_limits_only_witness :
  find_suitable_actuators 160 "Torque (Nm)" butterfly_6in 1.25 None
  = find_suitable_actuators 160 "Torque (Nm)"
      (Valve.mk 1 "Needle" 150 "Metal" 5 40 10 150 (-10)) 1.25 None.
Proof.
  apply (find_suitable_actuators_valve_limits_only 160 "Torque (Nm)" butterfly_6in
           (Valve.mk 1 "Needle" 150 "Metal" 5 40 10 150 (-10)) 1.25 None);
    reflexivity.
Defined.
